(** * Getting to Philosophy: a shallow embedding of [homework.py]

    The crawler of [CheckingPhenomenon] is embedded as Rocq functions:
    Python strings are [string]s over the first 256 code points, the
    parsed document is a tree of tags and text nodes, the object's fields
    are a record threaded through a small state/exception monad, and
    [print] appends a line to the recorded standard output. *)

From Stdlib Require Import ZArith List String Ascii Bool Lia Sorted.
From stdpp Require Import base gmap sets list strings.

Import ListNotations.
Local Open Scope string_scope.
Local Open Scope Z_scope.

(** ** Python strings *)

Module PyStr.

(** Strings as lists of characters and back. *)
Definition chars (s : string) : list ascii := list_ascii_of_string s.
Definition of_chars (l : list ascii) : string := string_of_list_ascii l.

(** [c in set] for a character and a set of characters given as a
    string, as [str.strip(chars)] uses its argument. *)
Definition mem (c : ascii) (set : list ascii) : bool :=
  existsb (Ascii.eqb c) set.

(** [sub in s] for a one-character [sub]. *)
Definition contains (c : ascii) (s : string) : bool := mem c (chars s).

(** [s.startswith(p)]. *)
Definition startswith (p s : string) : bool := String.prefix p s.

(** [str.isspace] of one character, on code points below 256. *)
Definition isspace (c : ascii) : bool :=
  let n := nat_of_ascii c in
  ((9 <=? n) && (n <=? 13) || (28 <=? n) && (n <=? 32)
   || (n =? 133) || (n =? 160))%nat.

(** [str.lower] of one character, on code points below 256: the letters
    A-Z and the Latin-1 capitals (192-222 but the multiplication sign
    215) move up by 32, every other character is kept. *)
Definition lower_char (c : ascii) : ascii :=
  let n := nat_of_ascii c in
  if ((65 <=? n) && (n <=? 90)
      || (192 <=? n) && (n <=? 222) && negb (n =? 215))%nat
  then ascii_of_nat (n + 32) else c.

Definition lower (s : string) : string := of_chars (map lower_char (chars s)).

(** Drop the leading characters that satisfy [p]. *)
Fixpoint lstrip_with (p : ascii -> bool) (l : list ascii) : list ascii :=
  match l with
  | [] => []
  | c :: l' => if p c then lstrip_with p l' else l
  end.

(** Drop them at both ends: first on the left, then, on the reversed
    rest, on the right. *)
Definition strip_with (p : ascii -> bool) (l : list ascii) : list ascii :=
  rev (lstrip_with p (rev (lstrip_with p l))).

(** [s.strip(set)]: leading and trailing characters in [set] go. *)
Definition strip (set : string) (s : string) : string :=
  of_chars (strip_with (fun c => mem c (chars set)) (chars s)).

(** [s.strip()]: leading and trailing white space goes. *)
Definition strip_ws (s : string) : string :=
  of_chars (strip_with isspace (chars s)).

(** [s.split()]: the maximal runs of characters that are not white
    space, in order; [cur] is the run being read, reversed. *)
Fixpoint split_go (cur : list ascii) (l : list ascii) : list string :=
  match l with
  | [] => match cur with [] => [] | _ => [of_chars (rev cur)] end
  | c :: l' =>
      if isspace c
      then match cur with
           | [] => split_go [] l'
           | _ => of_chars (rev cur) :: split_go [] l'
           end
      else split_go (c :: cur) l'
  end.

Definition split (s : string) : list string := split_go [] (chars s).

(** Truth value of a string: it is not empty. *)
Definition truthy (s : string) : bool :=
  match s with EmptyString => false | String _ _ => true end.

End PyStr.

(** ** The parsed document (what [bs4] hands to the program) *)

(** A tag has a name, a dictionary of attributes and, in document order,
    its children: tags ([inl]) and text nodes ([inr]). *)
#[warnings="-register-all"]
Inductive Tag : Type :=
  mkTag { tag_name : string;
          tag_attrs : gmap string string;
          tag_contents : list (Tag + string) }.

(** [tag.descendants] restricted to tags: every tag below [t], parents
    before children, siblings left to right. *)
Fixpoint descendant_tags (t : Tag) : list Tag :=
  flat_map (fun c => match c with
                     | inl t' => t' :: descendant_tags t'
                     | inr _ => []
                     end) (tag_contents t).

(** [tag.find_all(f)] for a function [f]: the descendant tags on which
    [f] is true, in document order. *)
Definition find_all (f : Tag -> bool) (t : Tag) : list Tag :=
  List.filter f (descendant_tags t).

(** The text nodes below [t], in document order. *)
Fixpoint all_strings (t : Tag) : list string :=
  flat_map (fun c => match c with
                     | inl t' => all_strings t'
                     | inr s => [s]
                     end) (tag_contents t).

(** [tag.stripped_strings]: each text node stripped of white space, the
    ones that become empty left out. *)
Definition stripped_strings (t : Tag) : list string :=
  List.filter PyStr.truthy (map PyStr.strip_ws (all_strings t)).

(** [tag.text]: the text nodes below [t] joined. *)
Definition text (t : Tag) : string :=
  fold_right String.append "" (all_strings t).

(** ** [collections.Counter] *)

(** A counter is a dictionary from words to counts; its keys are kept in
    insertion order, which [most_common] uses to order equal counts. *)
Module Counter.

Definition t : Type := list (string * Z).

Definition empty : t := [].

(** [c[k]], zero for a missing key. *)
Fixpoint get (c : t) (k : string) : Z :=
  match c with
  | [] => 0
  | (k', v) :: c' => if String.eqb k k' then v else get c' k
  end.

(** [c[k] = v]: a present key keeps its place, a new one goes last. *)
Fixpoint set (c : t) (k : string) (v : Z) : t :=
  match c with
  | [] => [(k, v)]
  | (k', v') :: c' =>
      if String.eqb k k' then (k, v) :: c' else (k', v') :: set c' k v
  end.

(** [Counter(words)]: one more for each element, in order. *)
Definition of_list (words : list string) : t :=
  fold_left (fun c w => set c w (get c w + 1)) words empty.

(** [self += other]: each count of [other] is added, then the entries
    that are not positive are dropped. *)
Definition iadd (self other : t) : t :=
  List.filter (fun kv => 0 <? snd kv)
    (fold_left (fun c kv => set c (fst kv) (get c (fst kv) + snd kv)) other self).

(** Sorting by count, largest first, equal counts in their own order. *)
Fixpoint insert_desc (x : string * Z) (l : list (string * Z)) : list (string * Z) :=
  match l with
  | [] => [x]
  | y :: l' => if snd x <? snd y then y :: insert_desc x l' else x :: l
  end.

Definition sorted_desc (c : t) : list (string * Z) :=
  fold_right insert_desc [] c.

(** [c.most_common(n)]. *)
Definition most_common (n : nat) (c : t) : list (string * Z) :=
  firstn n (sorted_desc c).

End Counter.

(** ** WordNormalizer: [_strip_and_lowercase_the_word] *)

(** The argument of [word.strip] at line 89. The Python literal denotes
    21 characters: the sixteen written first below, the double quote
    (character 34), the single quote, and a backslash, a slash and a
    backslash again (the escape before the slash is not one Python knows,
    so both characters stay). *)
Definition strip_set : string :=
  "()^%#@&!?-.,[]:;" ++ String (ascii_of_nat 34) "'\/\".

Definition _strip_and_lowercase_the_word (word : string) : string :=
  let prepared_word := PyStr.strip strip_set word in
  let prepared_word := PyStr.lower prepared_word in
  prepared_word.

(** ** LinkSelector: [_check_good_link] *)

Definition _check_good_link (tag : Tag) : bool :=
  String.eqb (tag_name tag) "a"
  && match tag_attrs tag !! "href" with
     | Some href => PyStr.startswith "/wiki" href && negb (PyStr.contains ":" href)
     | None => false
     end.

(** ** The running program: fields, output, exceptions *)

(** What the program can raise. [RequestException] stands for whatever
    [requests.get] raises; [AttributeError] is an attribute looked up on
    [None] (a page without the heading or the content element). *)
Inductive exn : Type :=
| RequestException (msg : string)
| AttributeError
| KeyError
| ZeroDivisionError.

(** The lines [print] writes; the wording is fixed, so a line is its
    wording's name and the values put into it. *)
Inductive line : Type :=
| PrintHeading (heading : string)
| PrintPhenomenonExists (i : Z)
| PrintTopTen (most_common : list (string * Z))
| PrintAverage (average : Z)
| PrintInfiniteLoop
| PrintCurrentUrl (url : string)
| PrintNoPhenomenon (max_page_number : Z)
| PrintException (e : exn).

(** What [requests.get] and the parser give for one request: an
    exception, or the final URL after redirects ([resp.url]) and, of the
    parsed body, the elements with ids [firstHeading] and
    [mw-content-text] ([None] when the page has none). *)
Inductive response : Type :=
| Fails (e : exn)
| Responds (url : string) (firstHeading : option Tag) (mw_content_text : option Tag).

(** The fields of a [CheckingPhenomenon] object, the number of requests
    sent so far and the standard output so far. *)
Record state : Type := mkState {
  _wiki_words_counter : Counter.t;
  _total_number_of_words_on_wiki_pages : Z;
  _url : string;
  _max_page_number : Z;
  _content : option Tag;
  _visited_pages : gset string;
  _heading : option Tag;
  requests_sent : nat;
  stdout : list line }.

(** A statement ends normally, raises an exception, or raises
    [SystemExit] with the code given to [exit]. *)
Inductive result (A : Type) : Type :=
| Normal (a : A) (s : state)
| Raised (e : exn) (s : state)
| SystemExit (code : option Z) (s : state).
Arguments Normal {A} a s.
Arguments Raised {A} e s.
Arguments SystemExit {A} code s.

Definition M (A : Type) : Type := state -> result A.

Definition ret {A} (a : A) : M A := fun s => Normal a s.

Definition bind {A B} (m : M A) (k : A -> M B) : M B :=
  fun s => match m s with
           | Normal a s' => k a s'
           | Raised e s' => Raised e s'
           | SystemExit c s' => SystemExit c s'
           end.

Notation "'let*' x ':=' m 'in' k" := (bind m (fun x => k))
  (at level 10, x pattern, m at level 100, k at level 200).

Definition get_state : M state := fun s => Normal s s.
Definition raise {A} (e : exn) : M A := fun s => Raised e s.

(** [exit(code)]. *)
Definition exit {A} (code : option Z) : M A := fun s => SystemExit code s.

(** [try: body except Exception as e: handler]; [SystemExit] is not an
    [Exception] and passes through. *)
Definition try_except {A} (body : M A) (handler : exn -> M A) : M A :=
  fun s => match body s with
           | Raised e s' => handler e s'
           | r => r
           end.

Definition print (l : line) : M unit := fun s =>
  Normal tt (mkState (_wiki_words_counter s) (_total_number_of_words_on_wiki_pages s)
               (_url s) (_max_page_number s) (_content s) (_visited_pages s)
               (_heading s) (requests_sent s) (stdout s ++ [l])).

(** An attribute of a value that may be [None]. *)
Definition attr_of {A} (o : option A) : M A :=
  match o with Some a => ret a | None => raise AttributeError end.

(** [a // b]. *)
Definition floordiv (a b : Z) : M Z :=
  if b =? 0 then raise ZeroDivisionError else ret (a / b).

(** The status the process ends with. *)
Definition exit_status {A} (r : result A) : Z :=
  match r with
  | Normal _ _ => 0
  | Raised _ _ => 1
  | SystemExit None _ => 0
  | SystemExit (Some c) _ => c
  end.

Definition final_state {A} (r : result A) : state :=
  match r with Normal _ s | Raised _ s | SystemExit _ s => s end.

(** ** The methods of [CheckingPhenomenon] *)

Definition origin : string := "https://en.wikipedia.org".

(** [tag['href']]. *)
Definition href_of (tag : Tag) : M string :=
  match tag_attrs tag !! "href" with
  | Some href => ret href
  | None => raise KeyError
  end.

(** The [for] loop of [_find_and_save_next_url] over the tags found. *)
Fixpoint next_url_loop (tags : list Tag) : M (option string) :=
  match tags with
  | [] => ret None
  | tag :: tags' =>
      let* href := href_of tag in
      let new_url := origin ++ href in
      let* s := get_state in
      if bool_decide (new_url ∉ _visited_pages s)
      then ret (Some new_url)
      else next_url_loop tags'
  end.

Definition _find_and_save_next_url (current_url : string) : M string :=
  let* s := get_state in
  let* content := attr_of (_content s) in
  let* found := next_url_loop (find_all _check_good_link content) in
  match found with
  | Some new_url => ret new_url
  | None =>
      let* _ := print PrintInfiniteLoop in
      let* s := get_state in
      let* _ := print (PrintCurrentUrl (_url s)) in
      exit (Some 0)
  end.

(** The inner [for] loop of [_get_words_from_page]: [prepared_word] is
    overwritten for each word of the list. *)
Fixpoint prepare_words (list_or_word : list string) (prepared_word : string) : string :=
  match list_or_word with
  | [] => prepared_word
  | word :: rest => prepare_words rest (_strip_and_lowercase_the_word word)
  end.

(** The outer loop: after the inner loop, [prepared_word] is appended
    when it is not empty. *)
Fixpoint collect_words (lists : list (list string)) (list_of_words : list string) : list string :=
  match lists with
  | [] => list_of_words
  | list_or_word :: rest =>
      let prepared_word := prepare_words list_or_word "" in
      collect_words rest
        (if PyStr.truthy prepared_word
         then list_of_words ++ [prepared_word]
         else list_of_words)
  end.

Definition _get_words_from_page : M (list string) :=
  let* s := get_state in
  let* content := attr_of (_content s) in
  ret (collect_words (map PyStr.split (stripped_strings content)) []).

Definition _print_statistics (number_of_iterations : Z) : M unit :=
  let* s := get_state in
  let* _ := print (PrintTopTen (Counter.most_common 10 (_wiki_words_counter s))) in
  let* average := floordiv (_total_number_of_words_on_wiki_pages s) number_of_iterations in
  print (PrintAverage average).

Section Crawl.

(** The web: what the [n]-th request of the run, for a URL, gives. *)
Variable requests_get : nat -> string -> response.

(** Lines 41-47: the request, the visited set, the heading and content. *)
Definition fetch_page : M string := fun s =>
  match requests_get (requests_sent s) (_url s) with
  | Fails e =>
      Raised e (mkState (_wiki_words_counter s) (_total_number_of_words_on_wiki_pages s)
                  (_url s) (_max_page_number s) (_content s) (_visited_pages s)
                  (_heading s) (S (requests_sent s)) (stdout s))
  | Responds current_url heading content =>
      Normal current_url
        (mkState (_wiki_words_counter s) (_total_number_of_words_on_wiki_pages s)
           (_url s) (_max_page_number s) content ({[current_url]} ∪ _visited_pages s)
           heading (S (requests_sent s)) (stdout s))
  end.

(** Lines 50-51. *)
Definition count_words (words : list string) : M unit := fun s =>
  Normal tt
    (mkState (Counter.iadd (_wiki_words_counter s) (Counter.of_list words))
       (_total_number_of_words_on_wiki_pages s + Z.of_nat (length words))
       (_url s) (_max_page_number s) (_content s) (_visited_pages s)
       (_heading s) (requests_sent s) (stdout s)).

Definition set_url (url : string) : M unit := fun s =>
  Normal tt
    (mkState (_wiki_words_counter s) (_total_number_of_words_on_wiki_pages s)
       url (_max_page_number s) (_content s) (_visited_pages s)
       (_heading s) (requests_sent s) (stdout s)).

Definition _parse_and_count_words : M unit :=
  let* current_url := fetch_page in
  let* words := _get_words_from_page in
  let* _ := count_words words in
  let* next := _find_and_save_next_url current_url in
  set_url next.

(** [self._heading.text]. *)
Definition heading_text : M string :=
  let* s := get_state in
  let* heading := attr_of (_heading s) in
  ret (text heading).

(** The body of the [try] statement for the index [i]. *)
Definition iteration (i : Z) : M unit :=
  let* _ := _parse_and_count_words in
  let* heading := heading_text in
  let* _ := print (PrintHeading heading) in
  if String.eqb heading "Philosophy"
  then
    let* _ := print (PrintPhenomenonExists i) in
    let* _ := _print_statistics (i + 1) in
    exit (Some 0)
  else ret tt.

(** The [except Exception as e] clause. *)
Definition handler (e : exn) : M unit :=
  let* _ := print (PrintException e) in
  exit None.

(** [range(n)]. *)
Definition range (n : Z) : list Z := map Z.of_nat (seq 0 (Z.to_nat n)).

(** The [for] loop of [run] over the indices left. *)
Fixpoint run_loop (indices : list Z) : M unit :=
  match indices with
  | [] => ret tt
  | i :: rest =>
      let* _ := try_except (iteration i) handler in
      run_loop rest
  end.

Definition run : M unit :=
  let* s := get_state in
  let* _ := run_loop (range (_max_page_number s)) in
  let* s := get_state in
  let* _ := print (PrintNoPhenomenon (_max_page_number s)) in
  let* s := get_state in
  _print_statistics (_max_page_number s).

End Crawl.

(** [CheckingPhenomenon(starting_url, max_page_number)], nothing sent or
    printed yet. *)
Definition __init__ (starting_url : string) (max_page_number : Z) : state :=
  mkState Counter.empty 0 starting_url max_page_number None ∅ None 0%nat [].

Definition default_starting_url : string :=
  "https://en.wikipedia.org/wiki/Special:Random".

(** ** What the specification says, for comparison *)

(** The words of a page as the specification describes them: every
    token of every stripped string, normalised, the empty results left
    out. *)
Definition spec_words_of_page (content : Tag) : list string :=
  List.filter PyStr.truthy
    (map _strip_and_lowercase_the_word
       (flat_map PyStr.split (stripped_strings content))).

(** The two statistics lines. *)
Definition is_statistics_line (l : line) : bool :=
  match l with
  | PrintTopTen _ | PrintAverage _ => true
  | _ => false
  end.

(** The line that reports the phenomenon. *)
Definition is_phenomenon_line (l : line) : bool :=
  match l with
  | PrintPhenomenonExists _ => true
  | _ => false
  end.

(** The candidate [tag] has an [href] whose absolute URL is in
    [visited]. *)
Definition leads_to_visited (visited : gset string) (tag : Tag) : Prop :=
  exists href, tag_attrs tag !! "href" = Some href /\ (origin ++ href) ∈ visited.

(** [s'] comes after [s] in a run: the visited set and the word total
    have only grown, the budget is the same, the output was only added
    to. *)
Record grows (s s' : state) : Prop := mkGrows {
  grows_visited : _visited_pages s ⊆ _visited_pages s';
  grows_total : _total_number_of_words_on_wiki_pages s
                <= _total_number_of_words_on_wiki_pages s';
  grows_budget : _max_page_number s' = _max_page_number s;
  grows_stdout : exists out, stdout s' = (stdout s ++ out)%list }.

(** No exit with a code other than 0. *)
Definition clean_exit {A} (r : result A) : Prop :=
  match r with
  | SystemExit (Some code) _ => code = 0
  | _ => True
  end.

(** A statement that, from every state, leaves a later state and makes
    no exit with a code other than 0. *)
Definition steady {A} (m : M A) : Prop :=
  forall s, grows s (final_state (m s)) /\ clean_exit (m s).

(** The state in which the link selector runs on a fetched page: the
    state [s] of the request after lines 41-51, for the final URL, the
    heading and the content of the response. *)
Definition state_at_selection (s : state) (final : string)
    (heading : option Tag) (content : Tag) : state :=
  let words := collect_words (map PyStr.split (stripped_strings content)) [] in
  mkState (Counter.iadd (_wiki_words_counter s) (Counter.of_list words))
    (_total_number_of_words_on_wiki_pages s + Z.of_nat (length words))
    (_url s) (_max_page_number s) (Some content)
    ({[final]} ∪ _visited_pages s) heading (S (requests_sent s)) (stdout s).

(** ** Sample pages and webs *)

Module Sample.

Definition anchor (href txt : string) : Tag :=
  mkTag "a" {[ "href" := href ]} [inr txt].

Definition paragraph (children : list (Tag + string)) : Tag :=
  mkTag "p" ∅ children.

Definition div (children : list (Tag + string)) : Tag :=
  mkTag "div" ∅ children.

Definition h1 (title : string) : Tag :=
  mkTag "h1" ∅ [inr title].

Definition start : string := "https://en.wikipedia.org/wiki/Start".

(** A page whose content is the single text [hello world]. *)
Definition hello_content : Tag := div [inr "hello world"].

Definition hello_web (n : nat) (url : string) : response :=
  Responds url (Some (h1 "Hello")) (Some hello_content).

(** The Philosophy article, with no link that qualifies. *)
Definition philosophy_web (n : nat) (url : string) : response :=
  Responds url (Some (h1 "Philosophy"))
    (Some (div [inl (paragraph [inr "Love of wisdom."])])).

(** An article with no link that qualifies. *)
Definition lonely_web (n : nat) (url : string) : response :=
  Responds url (Some (h1 "Lonely"))
    (Some (div [inl (paragraph [inr "Nothing to follow here."]);
                inl (anchor "/wiki/File:Lonely.png" "picture");
                inl (anchor "https://example.org/" "elsewhere")])).

(** Every request fails. *)
Definition dead_web (n : nat) (url : string) : response :=
  Fails (RequestException "Connection refused").

(** Content whose first two candidates lead to visited pages. *)
Definition three_links : Tag :=
  div [inl (paragraph [inl (anchor "/wiki/Cat:Foo" "namespaced");
                       inl (anchor "/wiki/A" "first");
                       inr " and ";
                       inl (anchor "/wiki/B" "second")]);
       inl (anchor "/other" "other");
       inl (anchor "/wiki/C" "third")].

Definition three_links_state : state :=
  mkState Counter.empty 0 start 10 (Some three_links)
    {[ "https://en.wikipedia.org/wiki/A"; "https://en.wikipedia.org/wiki/B" ]}
    (Some (h1 "Start")) 1%nat [].

(** A redirect: whatever is asked for, the article [Target] answers. *)
Definition redirect_web (n : nat) (url : string) : response :=
  Responds "https://en.wikipedia.org/wiki/Target" (Some (h1 "Target"))
    (Some (div [inl (anchor "/wiki/Next" "next")])).

End Sample.

(** ** Notions used for the further properties *)

(** How often [w] occurs in [words]. *)
Definition occurrences (w : string) (words : list string) : nat :=
  length (List.filter (String.eqb w) words).

(** The sum of the counts of a counter. *)
Definition counter_sum (c : Counter.t) : Z :=
  fold_right (fun kv acc => snd kv + acc) 0 c.

(** A counter as the program builds them: no key twice, every count
    positive. *)
Definition counter_wf (c : Counter.t) : Prop :=
  NoDup (map fst c) /\ Forall (fun kv => 0 < snd kv) c.

(** The statistics fields agree: the counter is well formed, no key is
    the empty string, and the counts add up to the word total. *)
Definition stats_consistent (s : state) : Prop :=
  counter_wf (_wiki_words_counter s)
  /\ Forall (fun kv => fst kv <> "") (_wiki_words_counter s)
  /\ counter_sum (_wiki_words_counter s) = _total_number_of_words_on_wiki_pages s.

(** A list of counter entries with the larger counts first. *)
Definition counts_descend (l : list (string * Z)) : Prop :=
  forall i j x y, (i < j)%nat -> l !! i = Some x -> l !! j = Some y -> snd y <= snd x.

(** The entries of [l] with the count [v], in their order. *)
Definition with_count (v : Z) (l : list (string * Z)) : list (string * Z) :=
  List.filter (fun kv => snd kv =? v) l.

(** The word of one stripped string as [_get_words_from_page] prepares
    it: the last token, normalised (the empty string when there is no
    token). *)
Definition last_word (tokens : list string) : string :=
  _strip_and_lowercase_the_word (List.last tokens "").

(** The absolute URLs of the qualifying candidates, in document order. *)
Definition candidate_urls (content : Tag) : list string :=
  omap (fun tag => match tag_attrs tag !! "href" with
                   | Some href => Some (origin ++ href)
                   | None => None
                   end)
    (find_all _check_good_link content).

(** The first candidate URL that is not in [visited]. *)
Definition first_unvisited (visited : gset string) (content : Tag) : option string :=
  List.find (fun url => bool_decide (url ∉ visited)) (candidate_urls content).

(** States that differ from [s] in one place. *)
Definition add_output (s : state) (lines : list line) : state :=
  mkState (_wiki_words_counter s) (_total_number_of_words_on_wiki_pages s)
    (_url s) (_max_page_number s) (_content s) (_visited_pages s)
    (_heading s) (requests_sent s) (stdout s ++ lines).

Definition with_url (s : state) (url : string) : state :=
  mkState (_wiki_words_counter s) (_total_number_of_words_on_wiki_pages s)
    url (_max_page_number s) (_content s) (_visited_pages s)
    (_heading s) (requests_sent s) (stdout s).

(** After a request that failed. *)
Definition after_failed_request (s : state) : state :=
  mkState (_wiki_words_counter s) (_total_number_of_words_on_wiki_pages s)
    (_url s) (_max_page_number s) (_content s) (_visited_pages s)
    (_heading s) (S (requests_sent s)) (stdout s).

(** After a response without a content element. *)
Definition after_response_without_content (s : state) (final : string)
    (heading : option Tag) : state :=
  mkState (_wiki_words_counter s) (_total_number_of_words_on_wiki_pages s)
    (_url s) (_max_page_number s) None ({[final]} ∪ _visited_pages s)
    heading (S (requests_sent s)) (stdout s).

(** The ways the [try] statement of [run] can end for the index [i] in
    the state [s], by what the request gives and what the page holds. *)
Inductive page_outcome (requests_get : nat -> string -> response) (i : Z) (s : state)
  : result unit -> Prop :=
| RequestFailed e :
    requests_get (requests_sent s) (_url s) = Fails e ->
    page_outcome requests_get i s
      (SystemExit None (add_output (after_failed_request s) [PrintException e]))
| NoContent final heading :
    requests_get (requests_sent s) (_url s) = Responds final heading None ->
    page_outcome requests_get i s
      (SystemExit None
         (add_output (after_response_without_content s final heading)
            [PrintException AttributeError]))
| DeadEnd final heading content :
    requests_get (requests_sent s) (_url s) = Responds final heading (Some content) ->
    first_unvisited ({[final]} ∪ _visited_pages s) content = None ->
    page_outcome requests_get i s
      (SystemExit (Some 0)
         (add_output (state_at_selection s final heading content)
            [PrintInfiniteLoop; PrintCurrentUrl (_url s)]))
| NoHeading final content next :
    requests_get (requests_sent s) (_url s) = Responds final None (Some content) ->
    first_unvisited ({[final]} ∪ _visited_pages s) content = Some next ->
    page_outcome requests_get i s
      (SystemExit None
         (add_output (with_url (state_at_selection s final None content) next)
            [PrintException AttributeError]))
| NextPage final heading content next :
    requests_get (requests_sent s) (_url s)
    = Responds final (Some heading) (Some content) ->
    first_unvisited ({[final]} ∪ _visited_pages s) content = Some next ->
    text heading <> "Philosophy" ->
    page_outcome requests_get i s
      (Normal tt
         (add_output (with_url (state_at_selection s final (Some heading) content) next)
            [PrintHeading (text heading)]))
| FoundPhilosophy final heading content next :
    requests_get (requests_sent s) (_url s)
    = Responds final (Some heading) (Some content) ->
    first_unvisited ({[final]} ∪ _visited_pages s) content = Some next ->
    text heading = "Philosophy" ->
    i + 1 <> 0 ->
    page_outcome requests_get i s
      (SystemExit (Some 0)
         (add_output (with_url (state_at_selection s final (Some heading) content) next)
            [PrintHeading "Philosophy"; PrintPhenomenonExists i;
             PrintTopTen
               (Counter.most_common 10
                  (_wiki_words_counter
                     (state_at_selection s final (Some heading) content)));
             PrintAverage
               (_total_number_of_words_on_wiki_pages
                  (state_at_selection s final (Some heading) content) / (i + 1))]))
| FoundPhilosophyDivisionByZero final heading content next :
    requests_get (requests_sent s) (_url s)
    = Responds final (Some heading) (Some content) ->
    first_unvisited ({[final]} ∪ _visited_pages s) content = Some next ->
    text heading = "Philosophy" ->
    i + 1 = 0 ->
    page_outcome requests_get i s
      (SystemExit None
         (add_output (with_url (state_at_selection s final (Some heading) content) next)
            [PrintHeading "Philosophy"; PrintPhenomenonExists i;
             PrintTopTen
               (Counter.most_common 10
                  (_wiki_words_counter
                     (state_at_selection s final (Some heading) content)));
             PrintException ZeroDivisionError])).

(** The last lines of the output are [lines]. *)
Definition output_ends_with (s : state) (lines : list line) : Prop :=
  exists before, stdout s = (before ++ lines)%list.

(** A URL of an article of the English Wikipedia outside every name
    space: the origin, [/wiki], and a rest without a colon. *)
Definition on_wikipedia (url : string) : Prop :=
  exists rest,
    url = "https://en.wikipedia.org/wiki" ++ rest
    /\ ~ In ":"%char (PyStr.chars rest).

(** The state after the loop of [run], before the verdict is printed. *)
Definition state_after_loop (requests_get : nat -> string -> response) (s : state) : state :=
  final_state (run_loop requests_get (range (_max_page_number s)) s).

(** * Properties *)

Local Open Scope list_scope.

(** ** Strings *)

Section StringFacts.

Lemma chars_of_chars l : PyStr.chars (PyStr.of_chars l) = l.
Proof. apply list_ascii_of_string_of_list_ascii. Qed.

Lemma of_chars_chars s : PyStr.of_chars (PyStr.chars s) = s.
Proof. apply string_of_list_ascii_of_string. Qed.

Lemma of_chars_empty l : PyStr.of_chars l = "" <-> l = [].
Proof.
  split; intros H.
  - destruct l; [reflexivity | discriminate H].
  - now subst.
Qed.

Lemma mem_In c set : PyStr.mem c set = true <-> In c set.
Proof.
  unfold PyStr.mem. rewrite existsb_exists. split.
  - intros (x & Hx & Heq). apply Ascii.eqb_eq in Heq. now subst.
  - intros H. exists c. split; [exact H | apply Ascii.eqb_refl].
Qed.

Lemma lstrip_with_split p l :
  exists pre, l = pre ++ PyStr.lstrip_with p l /\ Forall (fun c => p c = true) pre.
Proof.
  induction l as [|c l IH]; simpl.
  - exists []. split; [reflexivity | constructor].
  - destruct (p c) eqn:Hc.
    + destruct IH as (pre & Heq & Hall). exists (c :: pre). split.
      * simpl. now rewrite <- Heq.
      * now constructor.
    + exists []. split; [reflexivity | constructor].
Qed.

Lemma lstrip_with_head p l c rest :
  PyStr.lstrip_with p l = c :: rest -> p c = false.
Proof.
  induction l as [|a l IH]; simpl; [discriminate |].
  destruct (p a) eqn:Ha; [exact IH |].
  intros H. injection H as -> _. exact Ha.
Qed.

Lemma lstrip_with_all p l :
  Forall (fun c => p c = true) l -> PyStr.lstrip_with p l = [].
Proof.
  induction 1 as [|c l Hc _ IH]; simpl; [reflexivity |].
  now rewrite Hc.
Qed.

(** What stripping does: a prefix and a suffix made of characters to
    strip are cut off, and what stays neither starts nor ends with
    one. *)
Lemma strip_with_spec p l :
  exists pre suf,
    l = pre ++ PyStr.strip_with p l ++ suf
    /\ Forall (fun c => p c = true) pre
    /\ Forall (fun c => p c = true) suf
    /\ (forall c rest, PyStr.strip_with p l = c :: rest -> p c = false)
    /\ (forall c front, PyStr.strip_with p l = front ++ [c] -> p c = false).
Proof.
  unfold PyStr.strip_with.
  destruct (lstrip_with_split p l) as (pre & Hl & Hpre).
  set (m := PyStr.lstrip_with p l) in *.
  destruct (lstrip_with_split p (rev m)) as (suf0 & Hm & Hsuf).
  set (r := PyStr.lstrip_with p (rev m)) in *.
  assert (Hm' : m = rev r ++ rev suf0).
  { rewrite <- rev_app_distr, <- Hm. symmetry. apply rev_involutive. }
  exists pre, (rev suf0). repeat split.
  - now rewrite <- Hm'.
  - exact Hpre.
  - apply List.Forall_forall. intros c Hc. apply in_rev in Hc.
    rewrite List.Forall_forall in Hsuf. now apply Hsuf.
  - intros c rest Hrest. rewrite Hrest in Hm'. simpl in Hm'.
    exact (lstrip_with_head p l c _ Hm').
  - intros c front Hfront.
    assert (Hr : r = c :: rev front).
    { rewrite <- (rev_involutive r), Hfront, rev_app_distr. reflexivity. }
    exact (lstrip_with_head p (rev m) c _ Hr).
Qed.

Lemma strip_with_all p l :
  Forall (fun c => p c = true) l -> PyStr.strip_with p l = [].
Proof.
  intros H. unfold PyStr.strip_with. now rewrite (lstrip_with_all p l H).
Qed.

Lemma lower_empty s : PyStr.lower s = "" <-> s = "".
Proof.
  unfold PyStr.lower. rewrite of_chars_empty. split.
  - destruct s; [reflexivity | discriminate].
  - now intros ->.
Qed.

Lemma startswith_spec p s :
  PyStr.startswith p s = true <-> exists rest, s = (p ++ rest)%string.
Proof.
  unfold PyStr.startswith. revert s.
  induction p as [|a p IH]; intros s; simpl.
  - split; [intros _; now exists s | intros _; now destruct s].
  - destruct s as [|b s]; simpl.
    + split; [discriminate | intros (rest & H); discriminate H].
    + destruct (ascii_dec a b) as [->|Hne].
      * rewrite IH. split; intros (rest & H); exists rest.
        -- now rewrite H.
        -- now injection H.
      * split; [discriminate |].
        intros (rest & H). injection H as H1 _. now symmetry in H1.
Qed.

Lemma contains_spec c s :
  PyStr.contains c s = true <-> In c (PyStr.chars s).
Proof. apply mem_In. Qed.

End StringFacts.

(** ** WordNormalizer *)

(** C8: for every token, [_strip_and_lowercase_the_word] cuts off a
    prefix and a suffix made of characters of the strip set, so that what
    is left neither starts nor ends with one, and returns that in lower
    case; the result is empty exactly when the stripped token is; a token
    made of strip-set characters only gives the empty string; and the
    three sample tokens give [hello], [brackets] and the empty string. *)
Theorem normalize_strips_then_lowercases :
  forall token : string,
    let stripped := PyStr.strip strip_set token in
    let in_set := fun c => In c (PyStr.chars strip_set) in
    _strip_and_lowercase_the_word token = PyStr.lower stripped
    /\ (exists pre suf,
          PyStr.chars token = pre ++ PyStr.chars stripped ++ suf
          /\ Forall in_set pre /\ Forall in_set suf
          /\ (forall c rest, PyStr.chars stripped = c :: rest -> ~ in_set c)
          /\ (forall c front, PyStr.chars stripped = front ++ [c] -> ~ in_set c))
    /\ String.length (_strip_and_lowercase_the_word token) = String.length stripped
    /\ (_strip_and_lowercase_the_word token = "" <-> stripped = "")
    /\ (Forall in_set (PyStr.chars token) -> _strip_and_lowercase_the_word token = "")
    /\ _strip_and_lowercase_the_word "Hello," = "hello"
    /\ _strip_and_lowercase_the_word "[Brackets]" = "brackets"
    /\ _strip_and_lowercase_the_word "" = "".
Proof.
  intros token stripped in_set.
  set (p := fun c => PyStr.mem c (PyStr.chars strip_set)).
  assert (Hp : forall c, p c = true <-> in_set c) by (intros c; apply mem_In).
  assert (Hall : forall l, Forall (fun c => p c = true) l <-> Forall in_set l).
  { intros l. rewrite !List.Forall_forall. split; intros H c Hc; apply Hp, H, Hc. }
  assert (Hchars : PyStr.chars stripped = PyStr.strip_with p (PyStr.chars token)).
  { unfold stripped, PyStr.strip. apply chars_of_chars. }
  split; [reflexivity |].
  split.
  { destruct (strip_with_spec p (PyStr.chars token))
      as (pre & suf & Heq & Hpre & Hsuf & Hhd & Hlast).
    exists pre, suf. rewrite Hchars. repeat split.
    - exact Heq.
    - now apply Hall.
    - now apply Hall.
    - intros c rest Hc Hin. apply Hp in Hin.
      rewrite (Hhd c rest Hc) in Hin. discriminate.
    - intros c front Hc Hin. apply Hp in Hin.
      rewrite (Hlast c front Hc) in Hin. discriminate. }
  split.
  { unfold _strip_and_lowercase_the_word, PyStr.lower. fold stripped.
    rewrite <- (of_chars_chars stripped) at 2.
    unfold PyStr.of_chars, PyStr.chars.
    generalize (list_ascii_of_string stripped) as l.
    induction l as [|c l IH]; simpl; [reflexivity | now rewrite IH]. }
  split; [apply lower_empty |].
  split.
  { intros Hin. apply lower_empty. fold stripped.
    rewrite <- (of_chars_chars stripped), Hchars.
    apply of_chars_empty, strip_with_all, Hall, Hin. }
  repeat split.
Qed.

(** ** LinkSelector *)

Section LinkSelector.

Lemma check_good_link_href tag :
  _check_good_link tag = true -> is_Some (tag_attrs tag !! "href").
Proof.
  unfold _check_good_link. intros H. apply andb_true_iff in H as [_ H].
  destruct (tag_attrs tag !! "href"); [eauto | discriminate].
Qed.

Lemma find_all_good_href content :
  Forall (fun tag => is_Some (tag_attrs tag !! "href"))
    (find_all _check_good_link content).
Proof.
  apply List.Forall_forall. intros tag Hin.
  apply filter_In in Hin as [_ Hgood]. now apply check_good_link_href.
Qed.

(** The loop returns the first candidate that does not lead to a visited
    page, after skipping candidates that do; it changes nothing. *)
Lemma next_url_loop_spec tags s :
  Forall (fun tag => is_Some (tag_attrs tag !! "href")) tags ->
  (exists before tag after href,
      tags = before ++ tag :: after
      /\ tag_attrs tag !! "href" = Some href
      /\ Forall (leads_to_visited (_visited_pages s)) before
      /\ ((origin +:+ href) ∉ _visited_pages s)
      /\ next_url_loop tags s = Normal (Some (origin +:+ href)) s)
  \/ (Forall (leads_to_visited (_visited_pages s)) tags
      /\ next_url_loop tags s = Normal None s).
Proof.
  induction 1 as [|tag tags [href Hhref] _ IH].
  - right. split; [constructor | reflexivity].
  - cbn [next_url_loop]. unfold bind, href_of, get_state. rewrite Hhref. cbn.
    destruct (bool_decide (origin +:+ href ∉ _visited_pages s)) eqn:Hdec.
    + apply bool_decide_eq_true in Hdec.
      left. exists [], tag, tags, href. repeat split; auto.
    + apply bool_decide_eq_false in Hdec.
      assert (Hvis : leads_to_visited (_visited_pages s) tag).
      { exists href. split; [exact Hhref |].
        destruct (decide (origin +:+ href ∈ _visited_pages s)); [assumption |].
        now exfalso. }
      destruct IH as [(before & tag' & after & href' & -> & H1 & H2 & H3 & H4)
                     | [Hall Hnone]].
      * left. exists (tag :: before), tag', after, href'. repeat split; auto.
      * right. split; [now constructor | exact Hnone].
Qed.

End LinkSelector.

(** The selector's two outcomes, for a state with a content node. *)
Lemma link_selector_spec (s : state) (current_url : string) (content : Tag) :
  _content s = Some content ->
  (exists before tag after href,
      find_all _check_good_link content = before ++ tag :: after
      /\ tag_attrs tag !! "href" = Some href
      /\ Forall (leads_to_visited (_visited_pages s)) before
      /\ ((origin +:+ href) ∉ _visited_pages s)
      /\ _find_and_save_next_url current_url s = Normal (origin +:+ href) s)
  \/ (Forall (leads_to_visited (_visited_pages s)) (find_all _check_good_link content)
      /\ exists s',
          _find_and_save_next_url current_url s = SystemExit (Some 0) s'
          /\ s' = mkState (_wiki_words_counter s) (_total_number_of_words_on_wiki_pages s)
                    (_url s) (_max_page_number s) (_content s) (_visited_pages s)
                    (_heading s) (requests_sent s)
                    (stdout s ++ [PrintInfiniteLoop; PrintCurrentUrl (_url s)])).
Proof.
  intros Hcontent.
  unfold _find_and_save_next_url, bind, get_state. rewrite Hcontent. cbn.
  destruct (next_url_loop_spec _ s (find_all_good_href content))
    as [(before & tag & after & href & Heq & Hhref & Hbefore & Hnew & Hloop)
       | [Hall Hloop]].
  - left. exists before, tag, after, href. rewrite Hloop. auto.
  - right. split; [exact Hall |]. rewrite Hloop. cbn.
    eexists. split; [reflexivity |]. rewrite <- app_assoc, ?Hcontent. reflexivity.
Qed.

(** C5: for every content node and every visited set, the link selector
    either returns the absolute URL of a qualifying candidate that is not
    in the visited set, every qualifying candidate before it in document
    order leading to a visited page, and changes nothing; or every
    qualifying candidate leads to a visited page, and it prints the two
    lines of the dead-end report and exits with code 0. It never returns a
    visited URL. *)
Theorem link_selector_returns_first_unvisited :
  forall (s : state) (current_url : string) (content : Tag),
    _content s = Some content ->
    (exists before tag after href,
        find_all _check_good_link content = before ++ tag :: after
        /\ tag_attrs tag !! "href" = Some href
        /\ Forall (leads_to_visited (_visited_pages s)) before
        /\ ((origin +:+ href) ∉ _visited_pages s)
        /\ _find_and_save_next_url current_url s = Normal (origin +:+ href) s)
    \/ (Forall (leads_to_visited (_visited_pages s)) (find_all _check_good_link content)
        /\ exists s',
            _find_and_save_next_url current_url s = SystemExit (Some 0) s'
            /\ stdout s' = stdout s ++ [PrintInfiniteLoop; PrintCurrentUrl (_url s)]
            /\ _visited_pages s' = _visited_pages s).
Proof.
  intros s current_url content Hcontent.
  destruct (link_selector_spec s current_url content Hcontent)
    as [Hfound | (Hall & s' & Hexit & ->)].
  - left. exact Hfound.
  - right. split; [exact Hall |]. eexists. split; [exact Hexit |]. cbn. auto.
Qed.

(** With the pages [A] and [B] visited, the third candidate is chosen: the
    namespaced link and [/other] do not qualify, [A] and [B] are skipped. *)
Lemma link_selector_returns_first_unvisited_witness :
  _content Sample.three_links_state = Some Sample.three_links
  /\ _find_and_save_next_url Sample.start Sample.three_links_state
     = Normal "https://en.wikipedia.org/wiki/C" Sample.three_links_state.
Proof.
  split; [reflexivity |].
  destruct (link_selector_returns_first_unvisited
              Sample.three_links_state Sample.start Sample.three_links eq_refl)
    as [(before & tag & after & href & _ & _ & _ & _ & Hsel) | (_ & s' & Hexit & _)].
  - rewrite Hsel. vm_compute in Hsel. injection Hsel as Hurl. now rewrite Hurl.
  - vm_compute in Hexit. discriminate Hexit.
Defined.

(** The loop passes over candidates that lead to visited pages and
    returns the absolute URL of the first one that does not. *)
Lemma next_url_loop_selects before tag after href s :
  Forall (leads_to_visited (_visited_pages s)) before ->
  tag_attrs tag !! "href" = Some href ->
  (origin +:+ href) ∉ _visited_pages s ->
  next_url_loop (before ++ tag :: after) s = Normal (Some (origin +:+ href)) s.
Proof.
  intros Hbefore Hhref Hnew.
  induction Hbefore as [|t before (h & Ht & Hvisited) _ IH];
    cbn [app next_url_loop]; unfold bind, href_of, get_state.
  - rewrite Hhref. cbn. now rewrite bool_decide_eq_true_2.
  - rewrite Ht. cbn. rewrite bool_decide_eq_false_2; [exact IH |].
    intros Hnot. now apply Hnot.
Qed.

(** C6: an anchor tag qualifies as a link candidate if and only if it has
    an [href] attribute that starts with [/wiki] and contains no colon.
    The selector makes the absolute URL by putting
    [https://en.wikipedia.org] in front of the [href]: whenever it returns
    a URL, that is the URL so made from a qualifying tag of the content;
    and whenever the content has a qualifying tag whose URL so made is not
    visited, every qualifying tag before it leading to a visited page, the
    selector returns exactly that URL and changes nothing. *)
Theorem anchor_qualifies_iff_and_absolute_url :
  (forall tag : Tag,
      tag_name tag = "a" ->
      (_check_good_link tag = true
       <-> exists href,
             tag_attrs tag !! "href" = Some href
             /\ (exists rest, href = "/wiki" +:+ rest)
             /\ ~ In ":"%char (PyStr.chars href)))
  /\ (forall (s s' : state) (current_url new_url : string),
         _find_and_save_next_url current_url s = Normal new_url s' ->
         exists content tag href,
           _content s = Some content
           /\ In tag (descendant_tags content)
           /\ _check_good_link tag = true
           /\ tag_attrs tag !! "href" = Some href
           /\ new_url = "https://en.wikipedia.org" +:+ href)
  /\ (forall (s : state) (current_url : string) (content : Tag)
             (before after : list Tag) (tag : Tag) (href : string),
         _content s = Some content ->
         find_all _check_good_link content = before ++ tag :: after ->
         Forall (leads_to_visited (_visited_pages s)) before ->
         tag_attrs tag !! "href" = Some href ->
         ("https://en.wikipedia.org" +:+ href) ∉ _visited_pages s ->
         _find_and_save_next_url current_url s
         = Normal ("https://en.wikipedia.org" +:+ href) s).
Proof.
  split; [| split].
  - intros tag Hname. unfold _check_good_link. rewrite Hname. cbn.
    destruct (tag_attrs tag !! "href") as [href|].
    + rewrite andb_true_iff, negb_true_iff, startswith_spec.
      rewrite <- not_true_iff_false, contains_spec. split.
      * intros [Hpre Hcolon]. exists href. auto.
      * intros (href' & Heq & Hpre & Hcolon). injection Heq as <-. auto.
    + split; [discriminate |]. intros (href & Heq & _). discriminate Heq.
  - intros s s' current_url new_url Hsel.
    destruct (_content s) as [content|] eqn:Hcontent.
    + destruct (link_selector_spec s current_url content Hcontent)
        as [(before & tag & after & href & Hall & Hhref & _ & _ & Hres)
           | (_ & s'' & Hres & _)].
      * rewrite Hres in Hsel. injection Hsel as <- <-.
        assert (Hin : In tag (find_all _check_good_link content)).
        { rewrite Hall. apply in_or_app. right. now left. }
        apply filter_In in Hin as [Hdesc Hgood].
        exists content, tag, href. auto.
      * rewrite Hres in Hsel. discriminate Hsel.
    + unfold _find_and_save_next_url, bind, get_state in Hsel.
      rewrite Hcontent in Hsel. discriminate Hsel.
  - intros s current_url content before after tag href
      Hcontent Hall Hbefore Hhref Hnew.
    unfold _find_and_save_next_url, bind, get_state.
    rewrite Hcontent. cbn. rewrite Hall.
    change "https://en.wikipedia.org"%string with origin in *.
    now rewrite (next_url_loop_selects before tag after href s Hbefore Hhref Hnew).
Qed.

(** Of [/wiki/Cat:Foo], [/wiki/Bar] and [/other], only [/wiki/Bar]
    qualifies; and with the pages [A] and [B] visited, the selector makes
    the URL of [C] from the [href] [/wiki/C] of the third candidate. *)
Lemma anchor_qualifies_iff_and_absolute_url_witness :
  tag_name (Sample.anchor "/wiki/Bar" "bar") = "a"
  /\ _check_good_link (Sample.anchor "/wiki/Bar" "bar") = true
  /\ _check_good_link (Sample.anchor "/wiki/Cat:Foo" "foo") = false
  /\ _check_good_link (Sample.anchor "/other" "other") = false
  /\ _content Sample.three_links_state = Some Sample.three_links
  /\ find_all _check_good_link Sample.three_links
     = [Sample.anchor "/wiki/A" "first"; Sample.anchor "/wiki/B" "second"]
       ++ Sample.anchor "/wiki/C" "third" :: []
  /\ Forall (leads_to_visited (_visited_pages Sample.three_links_state))
       [Sample.anchor "/wiki/A" "first"; Sample.anchor "/wiki/B" "second"]
  /\ tag_attrs (Sample.anchor "/wiki/C" "third") !! "href" = Some "/wiki/C"%string
  /\ (("https://en.wikipedia.org" +:+ "/wiki/C")
      ∉ _visited_pages Sample.three_links_state)
  /\ _find_and_save_next_url Sample.start Sample.three_links_state
     = Normal "https://en.wikipedia.org/wiki/C"%string Sample.three_links_state.
Proof.
  assert (Hfound : find_all _check_good_link Sample.three_links
                   = [Sample.anchor "/wiki/A" "first"; Sample.anchor "/wiki/B" "second"]
                     ++ Sample.anchor "/wiki/C" "third" :: []) by reflexivity.
  assert (Hbefore : Forall (leads_to_visited (_visited_pages Sample.three_links_state))
                      [Sample.anchor "/wiki/A" "first";
                       Sample.anchor "/wiki/B" "second"]).
  { constructor; [| constructor; [| constructor]].
    - exists "/wiki/A"%string. split; [reflexivity |].
      apply elem_of_union_l, elem_of_singleton. reflexivity.
    - exists "/wiki/B"%string. split; [reflexivity |].
      apply elem_of_union_r, elem_of_singleton. reflexivity. }
  assert (Hnew : ("https://en.wikipedia.org" +:+ "/wiki/C")
                 ∉ _visited_pages Sample.three_links_state).
  { intros Hin. apply elem_of_union in Hin as [Hin|Hin];
      apply elem_of_singleton in Hin; discriminate Hin. }
  split; [reflexivity |]. split.
  { apply (proj1 anchor_qualifies_iff_and_absolute_url
             (Sample.anchor "/wiki/Bar" "bar") eq_refl).
    exists "/wiki/Bar"%string. split; [reflexivity |].
    split; [now exists "/Bar"%string |].
    cbn. intros H. repeat (destruct H as [H|H]; [discriminate H |]). exact H. }
  split; [reflexivity |]. split; [reflexivity |]. split; [reflexivity |].
  split; [exact Hfound |]. split; [exact Hbefore |]. split; [reflexivity |].
  split; [exact Hnew |].
  exact (proj2 (proj2 anchor_qualifies_iff_and_absolute_url)
           Sample.three_links_state Sample.start Sample.three_links
           _ _ _ _ eq_refl Hfound Hbefore eq_refl Hnew).
Defined.

(** ** What every statement of the crawler preserves *)

Section Steady.

Lemma grows_refl s : grows s s.
Proof.
  split; [set_solver | lia | reflexivity |].
  exists []. now rewrite app_nil_r.
Qed.

Lemma grows_trans s1 s2 s3 : grows s1 s2 -> grows s2 s3 -> grows s1 s3.
Proof.
  intros [V1 T1 B1 [o1 O1]] [V2 T2 B2 [o2 O2]].
  split; [set_solver | lia | congruence |].
  exists (o1 ++ o2). now rewrite O2, O1, app_assoc.
Qed.

Lemma steady_ret {A} (a : A) : steady (ret a).
Proof. intros s. split; [apply grows_refl | exact I]. Qed.

Lemma steady_raise {A} (e : exn) : steady (@raise A e).
Proof. intros s. split; [apply grows_refl | exact I]. Qed.

Lemma steady_get_state : steady get_state.
Proof. intros s. split; [apply grows_refl | exact I]. Qed.

Lemma steady_exit_zero {A} : steady (@exit A (Some 0)).
Proof. intros s. split; [apply grows_refl | reflexivity]. Qed.

Lemma steady_exit_none {A} : steady (@exit A None).
Proof. intros s. split; [apply grows_refl | exact I]. Qed.

Lemma steady_print l : steady (print l).
Proof.
  intros s. split; [| exact I].
  split; cbn; [set_solver | lia | reflexivity | now exists [l]].
Qed.

Lemma steady_bind {A B} (m : M A) (k : A -> M B) :
  steady m -> (forall a, steady (k a)) -> steady (bind m k).
Proof.
  intros Hm Hk s. unfold bind.
  destruct (Hm s) as [Hg Hc]. destruct (m s) as [a s'|e s'|c s']; cbn in *.
  - destruct (Hk a s') as [Hg' Hc']. split; [| exact Hc'].
    eapply grows_trans; eassumption.
  - split; [exact Hg | exact I].
  - split; [exact Hg | exact Hc].
Qed.

Lemma steady_try_except {A} (body : M A) (handler : exn -> M A) :
  steady body -> (forall e, steady (handler e)) -> steady (try_except body handler).
Proof.
  intros Hb Hh s. unfold try_except.
  destruct (Hb s) as [Hg Hc]. destruct (body s) as [a s'|e s'|c s']; cbn in *.
  - split; [exact Hg | exact I].
  - destruct (Hh e s') as [Hg' Hc']. split; [| exact Hc'].
    eapply grows_trans; eassumption.
  - split; [exact Hg | exact Hc].
Qed.

Lemma steady_attr_of {A} (o : option A) : steady (attr_of o).
Proof. destruct o; [apply steady_ret | apply steady_raise]. Qed.

Lemma steady_floordiv a b : steady (floordiv a b).
Proof.
  unfold floordiv. destruct (b =? 0); [apply steady_raise | apply steady_ret].
Qed.

Lemma steady_href_of tag : steady (href_of tag).
Proof.
  unfold href_of. destruct (tag_attrs tag !! "href");
    [apply steady_ret | apply steady_raise].
Qed.

Create HintDb steady.
#[local] Hint Resolve steady_ret steady_raise steady_get_state steady_exit_zero
  steady_exit_none steady_print steady_attr_of steady_floordiv steady_href_of
  : steady.

(** One step through a statement written with [let*]. *)
Ltac steady_step :=
  first
    [ apply steady_bind; [| intros ?]
    | apply steady_try_except; [| intros ?]
    | match goal with
      | |- steady (if ?b then _ else _) => destruct b
      | |- steady (match ?o with Some _ => _ | None => _ end) => destruct o
      end ].

Ltac steady_tac := repeat steady_step; eauto with steady.

Lemma steady_next_url_loop tags : steady (next_url_loop tags).
Proof.
  induction tags as [|tag tags IH]; cbn [next_url_loop]; steady_tac.
Qed.
#[local] Hint Resolve steady_next_url_loop : steady.

Lemma steady_find_and_save_next_url current_url :
  steady (_find_and_save_next_url current_url).
Proof. unfold _find_and_save_next_url. steady_tac. Qed.

Lemma steady_get_words_from_page : steady _get_words_from_page.
Proof. unfold _get_words_from_page. steady_tac. Qed.

Lemma steady_print_statistics n : steady (_print_statistics n).
Proof. unfold _print_statistics. steady_tac. Qed.

Lemma steady_count_words words : steady (count_words words).
Proof.
  intros s. split; [| exact I].
  split; cbn; [set_solver | lia | reflexivity |].
  exists []. now rewrite app_nil_r.
Qed.

Lemma steady_set_url url : steady (set_url url).
Proof.
  intros s. split; [| exact I].
  split; cbn; [set_solver | lia | reflexivity |].
  exists []. now rewrite app_nil_r.
Qed.

Lemma steady_handler e : steady (handler e).
Proof. unfold handler. steady_tac. Qed.

#[local] Hint Resolve steady_find_and_save_next_url steady_get_words_from_page
  steady_print_statistics steady_count_words steady_set_url steady_handler
  : steady.

Variable requests_get : nat -> string -> response.

Lemma steady_fetch_page : steady (fetch_page requests_get).
Proof.
  intros s. unfold fetch_page.
  destruct (requests_get (requests_sent s) (_url s)) as [e|url h c];
    (split; [| exact I]);
    (split; cbn; [set_solver | lia | reflexivity |]);
    exists []; now rewrite app_nil_r.
Qed.
#[local] Hint Resolve steady_fetch_page : steady.

Lemma steady_parse_and_count_words : steady (_parse_and_count_words requests_get).
Proof. unfold _parse_and_count_words. steady_tac. Qed.
#[local] Hint Resolve steady_parse_and_count_words : steady.

Lemma steady_heading_text : steady heading_text.
Proof. unfold heading_text. steady_tac. Qed.
#[local] Hint Resolve steady_heading_text : steady.

Lemma steady_iteration i : steady (iteration requests_get i).
Proof. unfold iteration. steady_tac. Qed.
#[local] Hint Resolve steady_iteration : steady.

Lemma steady_run_loop indices : steady (run_loop requests_get indices).
Proof.
  induction indices as [|i rest IH]; cbn [run_loop]; steady_tac.
Qed.
#[local] Hint Resolve steady_run_loop : steady.

Lemma steady_run : steady (run requests_get).
Proof. unfold run. steady_tac. Qed.

(** The [try] statement of the loop never lets an exception out. *)
Lemma try_iteration_not_raised i s e s' :
  try_except (iteration requests_get i) handler s <> Raised e s'.
Proof.
  unfold try_except.
  destruct (iteration requests_get i s); [discriminate | | discriminate].
  unfold handler, bind, print, exit. discriminate.
Qed.

Lemma run_loop_not_raised indices s e s' :
  run_loop requests_get indices s <> Raised e s'.
Proof.
  revert s. induction indices as [|i rest IH]; intros s; cbn [run_loop].
  - discriminate.
  - unfold bind.
    destruct (try_except (iteration requests_get i) handler s) eqn:Htry.
    + apply IH.
    + now apply try_iteration_not_raised in Htry.
    + discriminate.
Qed.

End Steady.

(** ** CrawlController: one page *)

Section OnePage.

Variable requests_get : nat -> string -> response.

(** A fetched page with a content node: lines 41-51 lead to the state in
    which the selector runs, and the rest is the selector and the
    assignment to [_url]. *)
Lemma parse_and_count_words_fetched s final heading content :
  requests_get (requests_sent s) (_url s) = Responds final heading (Some content) ->
  _parse_and_count_words requests_get s
  = (let* next := _find_and_save_next_url final in set_url next)
      (state_at_selection s final heading content).
Proof.
  intros Hget. unfold _parse_and_count_words, bind at 1 2 3, fetch_page.
  rewrite Hget. reflexivity.
Qed.

(** A fetched page without a content node: [AttributeError], after the
    final URL went into the visited set. *)
Lemma parse_and_count_words_no_content s final heading :
  requests_get (requests_sent s) (_url s) = Responds final heading None ->
  exists s', _parse_and_count_words requests_get s = Raised AttributeError s'
             /\ _visited_pages s' = {[final]} ∪ _visited_pages s.
Proof.
  intros Hget. unfold _parse_and_count_words, bind, fetch_page.
  rewrite Hget. cbn. eexists. split; reflexivity.
Qed.

(** The outcomes of the selector and the assignment, from the state in
    which the selector runs. *)
Lemma select_and_set_url_spec sm final content :
  _content sm = Some content ->
  (exists next,
      (next ∉ _visited_pages sm)
      /\ _find_and_save_next_url final sm = Normal next sm
      /\ (let* next := _find_and_save_next_url final in set_url next) sm
         = Normal tt (mkState (_wiki_words_counter sm)
                        (_total_number_of_words_on_wiki_pages sm) next
                        (_max_page_number sm) (_content sm) (_visited_pages sm)
                        (_heading sm) (requests_sent sm) (stdout sm)))
  \/ (Forall (leads_to_visited (_visited_pages sm)) (find_all _check_good_link content)
      /\ (let* next := _find_and_save_next_url final in set_url next) sm
         = SystemExit (Some 0)
             (mkState (_wiki_words_counter sm)
                (_total_number_of_words_on_wiki_pages sm) (_url sm)
                (_max_page_number sm) (_content sm) (_visited_pages sm)
                (_heading sm) (requests_sent sm)
                (stdout sm ++ [PrintInfiniteLoop; PrintCurrentUrl (_url sm)]))).
Proof.
  intros Hcontent.
  destruct (link_selector_spec sm final content Hcontent)
    as [(before & tag & after & href & _ & _ & _ & Hnew & Hsel)
       | (Hall & s' & Hexit & ->)].
  - left. exists (origin +:+ href). split; [exact Hnew |].
    split; [exact Hsel |]. unfold bind. now rewrite Hsel.
  - right. split; [exact Hall |]. unfold bind. now rewrite Hexit.
Qed.

End OnePage.

(** C7: for every fetched page, the link selector runs in a state whose
    visited set is the earlier one with the final URL of the response
    added (whatever URL was asked for), so the URL it selects is never
    that final URL; after the page the visited set is exactly that union;
    and over the loop and the whole run the visited set only grows. *)
Theorem final_url_visited_before_selection :
  forall (requests_get : nat -> string -> response) (s : state),
    (forall final heading content,
        requests_get (requests_sent s) (_url s) = Responds final heading content ->
        (forall c, content = Some c ->
           let sm := state_at_selection s final heading c in
           final ∈ _visited_pages sm
           /\ _visited_pages sm = {[final]} ∪ _visited_pages s
           /\ _parse_and_count_words requests_get s
              = (let* next := _find_and_save_next_url final in set_url next) sm)
        /\ _visited_pages (final_state (_parse_and_count_words requests_get s))
           = {[final]} ∪ _visited_pages s
        /\ (forall s', _parse_and_count_words requests_get s = Normal tt s' ->
                       _url s' <> final /\ _url s' ∉ _visited_pages s'))
    /\ _visited_pages s
       ⊆ _visited_pages (final_state (_parse_and_count_words requests_get s))
    /\ (forall indices,
           _visited_pages s
           ⊆ _visited_pages (final_state (run_loop requests_get indices s)))
    /\ _visited_pages s ⊆ _visited_pages (final_state (run requests_get s)).
Proof.
  intros requests_get s. split; [| split; [| split]].
  - intros final heading content Hget. split; [| split].
    + intros c -> sm. split; [subst sm; cbn; set_solver |].
      split; [reflexivity |].
      now apply parse_and_count_words_fetched.
    + destruct content as [c|].
      * rewrite (parse_and_count_words_fetched _ _ _ _ _ Hget).
        destruct (select_and_set_url_spec (state_at_selection s final heading c)
                    final c eq_refl) as [(next & _ & _ & ->) | (_ & ->)];
          reflexivity.
      * destruct (parse_and_count_words_no_content _ _ _ _ Hget) as (s' & -> & Hv).
        exact Hv.
    + intros s' Hnormal. destruct content as [c|].
      * rewrite (parse_and_count_words_fetched _ _ _ _ _ Hget) in Hnormal.
        destruct (select_and_set_url_spec (state_at_selection s final heading c)
                    final c eq_refl) as [(next & Hnew & _ & Heq) | (_ & Heq)];
          rewrite Heq in Hnormal; [| discriminate Hnormal].
        injection Hnormal as <-. cbn in *. split; [| exact Hnew].
        intros ->. apply Hnew. set_solver.
      * destruct (parse_and_count_words_no_content _ _ _ _ Hget) as (s'' & Heq & _).
        rewrite Heq in Hnormal. discriminate Hnormal.
  - apply (steady_parse_and_count_words requests_get s).
  - intros indices. apply (steady_run_loop requests_get indices s).
  - apply (steady_run requests_get s).
Qed.

(** After a redirect it is the final URL that is visited, not the one
    asked for. *)
Lemma final_url_visited_before_selection_witness :
  Sample.redirect_web 0%nat Sample.start
  = Responds "https://en.wikipedia.org/wiki/Target" (Some (Sample.h1 "Target"))
      (Some (Sample.div [inl (Sample.anchor "/wiki/Next" "next")]))
  /\ _visited_pages
       (final_state (_parse_and_count_words Sample.redirect_web (__init__ Sample.start 3)))
     = {[ "https://en.wikipedia.org/wiki/Target" ]} ∪ ∅.
Proof.
  split; [reflexivity |].
  exact (proj1 (proj2 (proj1 (final_url_visited_before_selection
                                Sample.redirect_web (__init__ Sample.start 3))
                         _ _ _ eq_refl))).
Defined.

(** ** StatisticsAggregator *)

(** The word total of a run is never negative: it starts at zero and
    only grows. *)
Lemma total_nonnegative_in_run requests_get starting_url max_page_number indices :
  0 <= _total_number_of_words_on_wiki_pages
         (final_state (run_loop requests_get indices
                         (__init__ starting_url max_page_number))).
Proof.
  apply (grows_total _ _
           (proj1 (steady_run_loop requests_get indices
                     (__init__ starting_url max_page_number)))).
Qed.

(** C9: for every word total (a count, so not negative) and every
    number of iterations that is at least 1, [_print_statistics] ends
    normally and prints, after the top-ten line, the average line with
    the quotient of the total by the number of iterations, truncated. *)
Theorem average_is_truncated_quotient :
  forall (s : state) (number_of_iterations : Z),
    0 <= _total_number_of_words_on_wiki_pages s ->
    1 <= number_of_iterations ->
    exists s',
      _print_statistics number_of_iterations s = Normal tt s'
      /\ stdout s'
         = stdout s
           ++ [PrintTopTen (Counter.most_common 10 (_wiki_words_counter s));
               PrintAverage (Z.quot (_total_number_of_words_on_wiki_pages s)
                               number_of_iterations)].
Proof.
  intros s n Htotal Hn.
  unfold _print_statistics, bind, get_state, floordiv. cbn.
  destruct (n =? 0) eqn:Hzero; [apply Z.eqb_eq in Hzero; lia |].
  cbn. eexists. split; [reflexivity |]. cbn.
  rewrite <- app_assoc. cbn.
  rewrite Z.quot_div_nonneg by lia. reflexivity.
Qed.

(** A total of 100 words over 3 iterations prints the average 33. *)
Lemma average_is_truncated_quotient_witness :
  let s := mkState [("the", 50); ("of", 30); ("and", 20)] 100 Sample.start 3
             None ∅ None 3%nat [] in
  0 <= _total_number_of_words_on_wiki_pages s
  /\ 1 <= 3
  /\ stdout (final_state (_print_statistics 3 s))
     = [PrintTopTen [("the", 50); ("of", 30); ("and", 20)]; PrintAverage 33].
Proof.
  intros s.
  assert (Htotal : 0 <= _total_number_of_words_on_wiki_pages s) by (cbn; lia).
  assert (Hn : 1 <= 3) by lia.
  split; [exact Htotal |]. split; [exact Hn |].
  destruct (average_is_truncated_quotient s 3 Htotal Hn) as (s' & Hrun & Hout).
  rewrite Hrun. exact Hout.
Defined.

(** ** CrawlController: the whole run *)

Section WholeRun.

Variable requests_get : nat -> string -> response.

(** With a budget other than zero the status is 0 however the run ends:
    both calls of [exit] give 0, the [try] statement lets no exception
    out, and the division after the loop has a divisor other than zero. *)
Lemma exit_status_zero_for_nonzero_budget s :
  _max_page_number s <> 0 -> exit_status (run requests_get s) = 0.
Proof.
  intros Hbudget. unfold run, bind at 1 2, get_state.
  pose proof (steady_run_loop requests_get (range (_max_page_number s)) s)
    as [Hgrows Hclean].
  destruct (run_loop requests_get (range (_max_page_number s)) s)
    as [[] s1|e s1|code s1] eqn:Hloop.
  - cbn in Hgrows. apply grows_budget in Hgrows.
    unfold bind, print, _print_statistics, floordiv. cbn.
    rewrite Hgrows.
    destruct (_max_page_number s =? 0) eqn:Hzero;
      [apply Z.eqb_eq in Hzero; contradiction | reflexivity].
  - now apply run_loop_not_raised in Hloop.
  - cbn in *. destruct code as [code|]; [exact Hclean | reflexivity].
Qed.

(** With a budget of zero nothing is requested, the verdict and the
    top-ten line are printed, and the division raises. *)
Lemma run_with_zero_budget starting_url :
  run requests_get (__init__ starting_url 0)
  = Raised ZeroDivisionError
      (mkState Counter.empty 0 starting_url 0 None ∅ None 0%nat
         [PrintNoPhenomenon 0; PrintTopTen []]).
Proof. reflexivity. Qed.

(** A run that comes to the end of its budget prints the verdict and
    the two statistics lines last. *)
Lemma run_exhausted_prints_statistics s s' :
  run requests_get s = Normal tt s' ->
  exists before top average,
    stdout s'
    = before ++ [PrintNoPhenomenon (_max_page_number s');
                 PrintTopTen top; PrintAverage average].
Proof.
  unfold run, bind at 1 2, get_state.
  destruct (run_loop requests_get (range (_max_page_number s)) s)
    as [[] s1|e s1|code s1]; [| discriminate | discriminate].
  unfold bind, print, _print_statistics, floordiv. cbn.
  destruct (_max_page_number s1 =? 0); cbn; [discriminate |].
  intros H. injection H as <-. cbn.
  exists (stdout s1), (Counter.most_common 10 (_wiki_words_counter s1)),
    (_total_number_of_words_on_wiki_pages s1 / _max_page_number s1).
  now rewrite <- !app_assoc.
Qed.

End WholeRun.

(** C4: the exit status of a run, for every web, starting URL and
    budget: 0 for every budget other than zero, however the run ends,
    and 1 for the budget zero, where [_print_statistics] divides by
    zero after the loop. *)
Theorem exit_status_by_budget :
  forall (requests_get : nat -> string -> response)
         (starting_url : string) (max_page_number : Z),
    exit_status (run requests_get (__init__ starting_url max_page_number))
    = if max_page_number =? 0 then 1 else 0.
Proof.
  intros requests_get starting_url max_page_number.
  destruct (max_page_number =? 0) eqn:Hzero.
  - apply Z.eqb_eq in Hzero. subst. now rewrite run_with_zero_budget.
  - apply Z.eqb_neq in Hzero. now apply exit_status_zero_for_nonzero_budget.
Qed.

(** C10, as stated, fails: with the budget zero a statistics line is
    printed before the crash. *)
Lemma zero_budget_prints_no_statistics_counterexample :
  ~ (let r := run Sample.dead_web (__init__ default_starting_url 0) in
     requests_sent (final_state r) = 0%nat
     /\ (exists s', r = Raised ZeroDivisionError s')
     /\ forallb (fun l => negb (is_statistics_line l)) (stdout (final_state r)) = true
     /\ exit_status r <> 0).
Proof.
  intros (_ & _ & Hnone & _). vm_compute in Hnone. discriminate Hnone.
Qed.

(** C10, amended: with the budget zero, [run] sends no request, prints
    the verdict of the exhausted budget and the top-ten line with an empty
    list, and then the division by zero in [_print_statistics] raises
    [ZeroDivisionError] outside the [try] statement: the average line is
    not printed and the exit status is 1. *)
Theorem zero_budget_crashes_after_top_ten_line :
  forall (requests_get : nat -> string -> response) (starting_url : string),
    let r := run requests_get (__init__ starting_url 0) in
    run_loop requests_get (range 0) (__init__ starting_url 0)
    = Normal tt (__init__ starting_url 0)
    /\ (exists s', r = Raised ZeroDivisionError s')
    /\ requests_sent (final_state r) = 0%nat
    /\ stdout (final_state r) = [PrintNoPhenomenon 0; PrintTopTen []]
    /\ exit_status r = 1.
Proof.
  intros requests_get starting_url r. subst r.
  rewrite run_with_zero_budget. cbn.
  repeat split. eexists. reflexivity.
Qed.

(** ** How a page can end the run *)

Section Exits.

Variable requests_get : nat -> string -> response.

(** The body of the [try] statement exits in two ways only, both with
    code 0: from the link selector, after the two lines of the dead-end
    report and nothing else, or from the check of the heading, after the
    heading, the verdict and the two statistics lines. *)
Lemma iteration_exit_spec i s code s' :
  iteration requests_get i s = SystemExit code s' ->
  code = Some 0
  /\ (stdout s' = stdout s ++ [PrintInfiniteLoop; PrintCurrentUrl (_url s)]
      \/ exists top average,
           stdout s'
           = stdout s ++ [PrintHeading "Philosophy"; PrintPhenomenonExists i;
                          PrintTopTen top; PrintAverage average]).
Proof.
  unfold iteration, bind at 1.
  destruct (requests_get (requests_sent s) (_url s))
    as [e|final heading [content|]] eqn:Hget.
  - unfold _parse_and_count_words, bind, fetch_page. rewrite Hget. discriminate.
  - rewrite (parse_and_count_words_fetched _ _ _ _ _ Hget).
    destruct (select_and_set_url_spec (state_at_selection s final heading content)
                final content eq_refl) as [(next & _ & _ & ->) | (_ & ->)].
    + unfold bind, heading_text, get_state, attr_of, ret, raise. cbn.
      destruct heading as [heading|]; [| discriminate]. cbn.
      destruct (String.eqb (text heading) "Philosophy") eqn:Hphil;
        [| discriminate].
      apply String.eqb_eq in Hphil. rewrite Hphil.
      unfold _print_statistics, bind, get_state, floordiv, print, exit, raise, ret.
      cbn. destruct (i + 1 =? 0); [discriminate |].
      intros H. injection H as <- <-. split; [reflexivity |]. right. cbn.
      do 2 eexists. rewrite <- !app_assoc. reflexivity.
    + intros H. injection H as <- <-. split; [reflexivity |]. now left.
  - destruct (parse_and_count_words_no_content _ _ _ _ Hget) as (s'' & -> & _).
    discriminate.
Qed.

(** When the selector finds a link on a page whose heading is
    [Philosophy], the run stops there with the verdict and the statistics. *)
Lemma iteration_reaches_philosophy i s final heading content next :
  requests_get (requests_sent s) (_url s)
  = Responds final (Some heading) (Some content) ->
  text heading = "Philosophy"%string ->
  _find_and_save_next_url final (state_at_selection s final (Some heading) content)
  = Normal next (state_at_selection s final (Some heading) content) ->
  i + 1 <> 0 ->
  exists s',
    iteration requests_get i s = SystemExit (Some 0) s'
    /\ stdout s'
       = stdout s
         ++ [PrintHeading "Philosophy"; PrintPhenomenonExists i;
             PrintTopTen (Counter.most_common 10
                            (_wiki_words_counter
                               (state_at_selection s final (Some heading) content)));
             PrintAverage (_total_number_of_words_on_wiki_pages
                             (state_at_selection s final (Some heading) content)
                           / (i + 1))].
Proof.
  intros Hget Htext Hsel Hi.
  unfold iteration, bind at 1.
  rewrite (parse_and_count_words_fetched _ _ _ _ _ Hget).
  destruct (select_and_set_url_spec (state_at_selection s final (Some heading) content)
              final content eq_refl) as [(next' & _ & _ & ->) | (_ & Hexit)].
  2: { unfold bind in Hexit. rewrite Hsel in Hexit. discriminate Hexit. }
  unfold bind, heading_text, get_state, attr_of, ret. cbn.
  rewrite Htext. cbn.
  unfold _print_statistics, bind, get_state, floordiv, print, exit, raise, ret. cbn.
  destruct (i + 1 =? 0) eqn:Hzero; [apply Z.eqb_eq in Hzero; contradiction |].
  eexists. split; [reflexivity |]. cbn. now rewrite <- !app_assoc.
Qed.

End Exits.

(** ** The words of a page *)

Section Words.

(** The inner loop keeps the last word only. *)
Lemma prepare_words_last front word prepared_word :
  prepare_words (front ++ [word]) prepared_word = _strip_and_lowercase_the_word word.
Proof.
  revert prepared_word. induction front as [|w front IH]; intros p; cbn.
  - reflexivity.
  - apply IH.
Qed.

Lemma collect_words_acc lists list_of_words :
  collect_words lists list_of_words = list_of_words ++ collect_words lists [].
Proof.
  revert list_of_words. induction lists as [|l lists IH]; intros acc; cbn.
  - now rewrite app_nil_r.
  - rewrite IH. rewrite (IH (if PyStr.truthy _ then _ else _)).
    destruct (PyStr.truthy (prepare_words l "")); cbn.
    + now rewrite <- app_assoc.
    + reflexivity.
Qed.

(** At most one word is collected for each stripped string. *)
Lemma collect_words_length lists :
  (length (collect_words lists []) <= length lists)%nat.
Proof.
  induction lists as [|l lists IH]; cbn; [lia |].
  rewrite collect_words_acc, length_app.
  destruct (PyStr.truthy (prepare_words l "")); cbn; lia.
Qed.

End Words.

(** C1, at a page whose content is the one text [hello world]: the
    specification's words of the page are [hello] and [world], but
    [_get_words_from_page] collects [world] only, so after the page the
    total is 1 and [hello] has no count. *)
Theorem only_last_word_of_each_string_counted :
  let s := __init__ Sample.start 1 in
  let s' := final_state (_parse_and_count_words Sample.hello_web s) in
  stripped_strings Sample.hello_content = ["hello world"%string]
  /\ spec_words_of_page Sample.hello_content = ["hello"%string; "world"%string]
  /\ _get_words_from_page
       (state_at_selection s Sample.start (Some (Sample.h1 "Hello")) Sample.hello_content)
     = Normal ["world"%string]
         (state_at_selection s Sample.start (Some (Sample.h1 "Hello")) Sample.hello_content)
  /\ _total_number_of_words_on_wiki_pages s' = 1
  /\ Counter.get (_wiki_words_counter s') "hello" = 0
  /\ Counter.get (_wiki_words_counter s') "world" = 1.
Proof. vm_compute. repeat split. Qed.

(** C2, at a run that starts on an article with the heading
    [Philosophy] and no qualifying link: the link selector runs before
    the heading is looked at, so the run prints the dead-end report and
    exits; the phenomenon is not reported and no statistics are
    printed. *)
Theorem philosophy_page_without_link_is_dead_end :
  let r := run Sample.philosophy_web (__init__ Sample.start 100) in
  (exists final content,
      Sample.philosophy_web 0%nat Sample.start
      = Responds final (Some (Sample.h1 "Philosophy")) (Some content)
      /\ text (Sample.h1 "Philosophy") = "Philosophy"%string
      /\ find_all _check_good_link content = [])
  /\ (exists s', r = SystemExit (Some 0) s')
  /\ stdout (final_state r) = [PrintInfiniteLoop; PrintCurrentUrl Sample.start]
  /\ existsb is_phenomenon_line (stdout (final_state r)) = false.
Proof.
  cbv zeta. split; [do 2 eexists; repeat split |].
  vm_compute. repeat split. eexists. reflexivity.
Qed.

(** C3, at a run that starts on an article with no qualifying link: the
    run ends as a dead end, with the two lines of the report as the only
    output; no statistics line is printed. *)
Theorem dead_end_prints_no_statistics :
  let r := run Sample.lonely_web (__init__ Sample.start 100) in
  find_all _check_good_link
    (Sample.div [inl (Sample.paragraph [inr "Nothing to follow here."%string]);
                 inl (Sample.anchor "/wiki/File:Lonely.png" "picture");
                 inl (Sample.anchor "https://example.org/" "elsewhere")]) = []
  /\ (exists s', r = SystemExit (Some 0) s')
  /\ stdout (final_state r) = [PrintInfiniteLoop; PrintCurrentUrl Sample.start]
  /\ existsb is_statistics_line (stdout (final_state r)) = false.
Proof.
  cbv zeta. split; [reflexivity |].
  vm_compute. repeat split. eexists. reflexivity.
Qed.

(** * Further properties *)

(** ** The counter *)

Section CounterFacts.

Lemma counter_get_set c k v k' :
  Counter.get (Counter.set c k v) k'
  = if String.eqb k' k then v else Counter.get c k'.
Proof.
  induction c as [|[k0 v0] c IH]; cbn.
  - reflexivity.
  - destruct (String.eqb k k0) eqn:Hk; cbn.
    + apply String.eqb_eq in Hk. subst k0.
      destruct (String.eqb k' k); reflexivity.
    + rewrite IH. destruct (String.eqb k' k0) eqn:Hk0; [| reflexivity].
      apply String.eqb_eq in Hk0. subst k0.
      rewrite String.eqb_sym, Hk. reflexivity.
Qed.

Lemma counter_get_absent c k :
  k ∉ map fst c -> Counter.get c k = 0.
Proof.
  induction c as [|[k0 v0] c IH]; cbn; [reflexivity |].
  intros Hnot. destruct (String.eqb k k0) eqn:Hk.
  - apply String.eqb_eq in Hk. subst. exfalso. apply Hnot. left.
  - apply IH. intros Hin. apply Hnot. now right.
Qed.

Lemma counter_get_nonneg c k :
  Forall (fun kv => 0 < snd kv) c -> 0 <= Counter.get c k.
Proof.
  induction 1 as [|[k0 v0] c Hpos _ IH]; cbn in *; [lia |].
  destruct (String.eqb k k0); lia.
Qed.

Lemma counter_set_keys c k v :
  map fst (Counter.set c k v)
  = if bool_decide (k ∈ map fst c) then map fst c else map fst c ++ [k].
Proof.
  induction c as [|[k0 v0] c IH]; cbn.
  - rewrite bool_decide_eq_false_2; [reflexivity | apply not_elem_of_nil].
  - destruct (String.eqb k k0) eqn:Hk; cbn.
    + apply String.eqb_eq in Hk. subst k0.
      rewrite bool_decide_eq_true_2; [reflexivity | left].
    + apply String.eqb_neq in Hk. rewrite IH.
      destruct (bool_decide (k ∈ map fst c)) eqn:Hin.
      * apply bool_decide_eq_true in Hin.
        rewrite bool_decide_eq_true_2; [reflexivity | now right].
      * apply bool_decide_eq_false in Hin.
        rewrite bool_decide_eq_false_2; [reflexivity |].
        intros Hin'. apply elem_of_cons in Hin' as [Heq | Hin'];
          [now apply Hk | now apply Hin].
Qed.

Lemma counter_set_NoDup c k v :
  NoDup (map fst c) -> NoDup (map fst (Counter.set c k v)).
Proof.
  intros Hnd. rewrite counter_set_keys.
  destruct (bool_decide (k ∈ map fst c)) eqn:Hin; [exact Hnd |].
  apply bool_decide_eq_false in Hin.
  apply NoDup_app. split; [exact Hnd |]. split.
  - intros x Hx Hx'. apply list_elem_of_singleton in Hx'. now subst.
  - apply NoDup_singleton.
Qed.

Lemma counter_set_Forall (P : string * Z -> Prop) c k v :
  Forall P c -> P (k, v) -> Forall P (Counter.set c k v).
Proof.
  intros Hall Hnew. induction Hall as [|[k0 v0] c H0 Hc IH]; cbn.
  - now constructor.
  - destruct (String.eqb k k0); constructor; assumption.
Qed.

Lemma counter_sum_set c k v :
  counter_sum (Counter.set c k v) = counter_sum c - Counter.get c k + v.
Proof.
  unfold counter_sum.
  induction c as [|[k0 v0] c IH]; cbn; [lia |].
  destruct (String.eqb k k0); cbn; [lia | rewrite IH; lia].
Qed.

(** One step of [Counter(words)] and of [+=]. *)
Lemma counter_add_wf c k v :
  counter_wf c -> 0 < v -> counter_wf (Counter.set c k (Counter.get c k + v)).
Proof.
  intros [Hnd Hpos] Hv. split.
  - now apply counter_set_NoDup.
  - apply counter_set_Forall; [exact Hpos |]. cbn.
    pose proof (counter_get_nonneg c k Hpos). lia.
Qed.

Lemma occurrences_cons w x words :
  occurrences w (x :: words)
  = ((if String.eqb w x then 1 else 0) + occurrences w words)%nat.
Proof.
  unfold occurrences. cbn. destruct (String.eqb w x); reflexivity.
Qed.

Lemma count_words_get words c w :
  Counter.get (fold_left (fun c w => Counter.set c w (Counter.get c w + 1)) words c) w
  = Counter.get c w + Z.of_nat (occurrences w words).
Proof.
  revert c. induction words as [|x words IH]; intros c; cbn [fold_left].
  - unfold occurrences. cbn. lia.
  - rewrite IH, counter_get_set, occurrences_cons.
    destruct (String.eqb w x) eqn:Hw.
    + apply String.eqb_eq in Hw. subst. lia.
    + lia.
Qed.

Lemma count_words_wf words c :
  counter_wf c ->
  counter_wf (fold_left (fun c w => Counter.set c w (Counter.get c w + 1)) words c).
Proof.
  revert c. induction words as [|x words IH]; intros c Hwf; cbn [fold_left].
  - exact Hwf.
  - apply IH, counter_add_wf; [exact Hwf | lia].
Qed.

Lemma count_words_sum words c :
  counter_sum (fold_left (fun c w => Counter.set c w (Counter.get c w + 1)) words c)
  = counter_sum c + Z.of_nat (length words).
Proof.
  revert c. induction words as [|x words IH]; intros c; cbn [fold_left length].
  - lia.
  - rewrite IH, counter_sum_set. lia.
Qed.

Lemma count_words_keys (P : string -> Prop) words c :
  Forall P words -> Forall (fun kv => P (fst kv)) c ->
  Forall (fun kv => P (fst kv))
    (fold_left (fun c w => Counter.set c w (Counter.get c w + 1)) words c).
Proof.
  intros Hwords. revert c.
  induction Hwords as [|x words Hx _ IH]; intros c Hc; cbn [fold_left].
  - exact Hc.
  - apply IH. now apply counter_set_Forall.
Qed.

Lemma add_counts_get other c w :
  NoDup (map fst other) ->
  Counter.get
    (fold_left (fun c kv => Counter.set c (fst kv) (Counter.get c (fst kv) + snd kv))
       other c) w
  = Counter.get c w + Counter.get other w.
Proof.
  intros Hnd. revert c.
  induction other as [|[k v] other IH]; intros c; cbn [fold_left].
  - cbn. lia.
  - cbn in Hnd. apply NoDup_cons in Hnd as [Hk Hnd].
    rewrite (IH Hnd), counter_get_set. cbn.
    destruct (String.eqb w k) eqn:Hw.
    + apply String.eqb_eq in Hw. subst.
      rewrite (counter_get_absent other k Hk). lia.
    + lia.
Qed.

Lemma add_counts_wf other c :
  counter_wf c -> Forall (fun kv => 0 < snd kv) other ->
  counter_wf
    (fold_left (fun c kv => Counter.set c (fst kv) (Counter.get c (fst kv) + snd kv))
       other c).
Proof.
  intros Hwf Hother. revert c Hwf.
  induction Hother as [|[k v] other Hv _ IH]; intros c Hwf; cbn [fold_left].
  - exact Hwf.
  - apply IH. now apply counter_add_wf.
Qed.

Lemma add_counts_sum other c :
  counter_sum
    (fold_left (fun c kv => Counter.set c (fst kv) (Counter.get c (fst kv) + snd kv))
       other c)
  = counter_sum c + counter_sum other.
Proof.
  revert c. induction other as [|[k v] other IH]; intros c; cbn [fold_left].
  - cbn. lia.
  - rewrite IH, counter_sum_set.
    change (counter_sum ((k, v) :: other)) with (v + counter_sum other).
    cbn [fst snd]. lia.
Qed.

Lemma add_counts_keys (P : string -> Prop) other c :
  Forall (fun kv => P (fst kv)) other -> Forall (fun kv => P (fst kv)) c ->
  Forall (fun kv => P (fst kv))
    (fold_left (fun c kv => Counter.set c (fst kv) (Counter.get c (fst kv) + snd kv))
       other c).
Proof.
  intros Hother. revert c.
  induction Hother as [|[k v] other Hk _ IH]; intros c Hc; cbn [fold_left].
  - exact Hc.
  - apply IH. now apply counter_set_Forall.
Qed.

Lemma keep_positive_id (c : Counter.t) :
  Forall (fun kv => 0 < snd kv) c ->
  List.filter (fun kv => 0 <? snd kv) c = c.
Proof.
  induction 1 as [|kv c Hpos _ IH]; cbn; [reflexivity |].
  apply Z.ltb_lt in Hpos. now rewrite Hpos, IH.
Qed.

Lemma of_list_wf words : counter_wf (Counter.of_list words).
Proof.
  apply count_words_wf. split; [apply NoDup_nil_2 | constructor].
Qed.

Lemma iadd_unfold c other :
  counter_wf c -> counter_wf other ->
  Counter.iadd c other
  = fold_left (fun c kv => Counter.set c (fst kv) (Counter.get c (fst kv) + snd kv))
      other c.
Proof.
  intros Hc [_ Hother]. unfold Counter.iadd.
  apply keep_positive_id. now apply (add_counts_wf other c Hc Hother).
Qed.

End CounterFacts.

(** X1 ([Counter(words)], line 50): the counter built from a list of
    words gives each word the number of its occurrences in the list (zero
    for a word that is not there), has no key twice and positive counts
    only, and its counts add up to the length of the list. *)
Theorem counter_of_list_counts_occurrences :
  forall (words : list string),
    (forall w, Counter.get (Counter.of_list words) w = Z.of_nat (occurrences w words))
    /\ counter_wf (Counter.of_list words)
    /\ counter_sum (Counter.of_list words) = Z.of_nat (length words).
Proof.
  intros words. split; [| split].
  - intros w. unfold Counter.of_list. rewrite count_words_get. reflexivity.
  - apply of_list_wf.
  - unfold Counter.of_list. rewrite count_words_sum. reflexivity.
Qed.

(** X2 ([self._wiki_words_counter += Counter(words)], line 50): on a
    well-formed counter, adding the words of a page raises the count of
    every word by the number of its occurrences among them and leaves the
    other counts alone; the counter stays well formed and its sum grows by
    the number of words. *)
Theorem counter_iadd_adds_occurrences :
  forall (c : Counter.t) (words : list string),
    counter_wf c ->
    (forall w, Counter.get (Counter.iadd c (Counter.of_list words)) w
               = Counter.get c w + Z.of_nat (occurrences w words))
    /\ counter_wf (Counter.iadd c (Counter.of_list words))
    /\ counter_sum (Counter.iadd c (Counter.of_list words))
       = counter_sum c + Z.of_nat (length words).
Proof.
  intros c words Hwf.
  pose proof (of_list_wf words) as Hwf'.
  rewrite (iadd_unfold c _ Hwf Hwf'). split; [| split].
  - intros w. rewrite add_counts_get by apply Hwf'.
    unfold Counter.of_list. rewrite count_words_get. reflexivity.
  - apply add_counts_wf; [exact Hwf | apply Hwf'].
  - rewrite add_counts_sum. unfold Counter.of_list.
    rewrite count_words_sum. reflexivity.
Qed.

(** Two occurrences of [a] and one of [the] are added to a counter that
    has [the] twice. *)
Lemma counter_iadd_adds_occurrences_witness :
  counter_wf [("the"%string, 2)]
  /\ Counter.get (Counter.iadd [("the"%string, 2)]
                    (Counter.of_list ["a"; "the"; "a"]%string)) "the" = 3
  /\ Counter.get (Counter.iadd [("the"%string, 2)]
                    (Counter.of_list ["a"; "the"; "a"]%string)) "a" = 2.
Proof.
  assert (Hwf : counter_wf [("the"%string, 2)]).
  { split; [apply NoDup_singleton | repeat constructor]. }
  split; [exact Hwf |].
  pose proof (proj1 (counter_iadd_adds_occurrences
                       [("the"%string, 2)] ["a"; "the"; "a"]%string Hwf)) as Hget.
  split; [exact (Hget "the"%string) | exact (Hget "a"%string)].
Defined.

(** ** [most_common] *)

Section MostCommon.

Lemma insert_desc_perm x l : Permutation (Counter.insert_desc x l) (x :: l).
Proof.
  induction l as [|y l IH]; cbn; [reflexivity |].
  destruct (snd x <? snd y); [| reflexivity].
  rewrite IH. apply perm_swap.
Qed.

Lemma sorted_desc_perm c : Permutation (Counter.sorted_desc c) c.
Proof.
  induction c as [|x c IH]; cbn; [reflexivity |].
  rewrite insert_desc_perm. now constructor.
Qed.

Lemma insert_desc_sorted x l :
  StronglySorted (fun a b => snd b <= snd a) l ->
  StronglySorted (fun a b => snd b <= snd a) (Counter.insert_desc x l).
Proof.
  induction 1 as [|y l Hsorted IH Hall]; cbn.
  - repeat constructor.
  - destruct (snd x <? snd y) eqn:Hlt.
    + apply Z.ltb_lt in Hlt. constructor; [exact IH |].
      rewrite insert_desc_perm. constructor; [lia | exact Hall].
    + apply Z.ltb_ge in Hlt. constructor.
      * now constructor.
      * constructor; [exact Hlt |].
        eapply Forall_impl; [exact Hall |]. cbn. intros z Hz. lia.
Qed.

Lemma sorted_desc_sorted c :
  StronglySorted (fun a b => snd b <= snd a) (Counter.sorted_desc c).
Proof.
  induction c as [|x c IH]; cbn; [constructor | now apply insert_desc_sorted].
Qed.

Lemma sorted_counts_descend l :
  StronglySorted (fun a b => snd b <= snd a) l -> counts_descend l.
Proof.
  induction 1 as [|x l Hsorted IH Hall]; intros i j a b Hij Hi Hj.
  - rewrite lookup_nil in Hi. discriminate Hi.
  - destruct j as [|j]; [lia |]. cbn in Hj. destruct i as [|i]; cbn in Hi.
    + injection Hi as <-. rewrite List.Forall_forall in Hall.
      apply Hall. apply list_elem_of_In. eapply list_elem_of_lookup_2. exact Hj.
    + apply (IH i j); [lia | exact Hi | exact Hj].
Qed.

Lemma with_count_insert_desc v x l :
  with_count v (Counter.insert_desc x l)
  = if snd x =? v then x :: with_count v l else with_count v l.
Proof.
  unfold with_count. induction l as [|y l IH]; cbn; [reflexivity |].
  destruct (snd x <? snd y) eqn:Hlt; cbn; [| reflexivity].
  apply Z.ltb_lt in Hlt. rewrite IH.
  destruct (snd x =? v) eqn:Hx; [| reflexivity].
  apply Z.eqb_eq in Hx.
  destruct (snd y =? v) eqn:Hy; [apply Z.eqb_eq in Hy; lia | reflexivity].
Qed.

Lemma with_count_sorted_desc v c :
  with_count v (Counter.sorted_desc c) = with_count v c.
Proof.
  induction c as [|x c IH]; [reflexivity |].
  change (Counter.sorted_desc (x :: c))
    with (Counter.insert_desc x (Counter.sorted_desc c)).
  rewrite with_count_insert_desc, IH. unfold with_count. cbn.
  destruct (snd x =? v); reflexivity.
Qed.

End MostCommon.

(** X3 ([most_common], line 96): [most_common n] returns the first [n]
    entries (all of them when there are fewer) of a rearrangement of the
    counter in which the counts descend and entries with equal counts keep
    the order they have in the counter; so no entry left out has a larger
    count than one returned. *)
Theorem most_common_takes_largest_counts :
  forall (n : nat) (c : Counter.t),
  exists rest,
    Permutation c (Counter.most_common n c ++ rest)
    /\ counts_descend (Counter.most_common n c ++ rest)
    /\ length (Counter.most_common n c) = Nat.min n (length c)
    /\ (forall v, with_count v (Counter.most_common n c ++ rest) = with_count v c).
Proof.
  intros n c. exists (skipn n (Counter.sorted_desc c)).
  unfold Counter.most_common. rewrite firstn_skipn. repeat split.
  - symmetry. apply sorted_desc_perm.
  - apply sorted_counts_descend, sorted_desc_sorted.
  - rewrite length_firstn. f_equal. apply Permutation_length, sorted_desc_perm.
  - intros v. apply with_count_sorted_desc.
Qed.

(** ** Normalised words *)

Section NormalForm.

Lemma lower_char_idempotent c :
  PyStr.lower_char (PyStr.lower_char c) = PyStr.lower_char c.
Proof. destruct c as [[] [] [] [] [] [] [] []]; reflexivity. Qed.

Lemma strip_set_lower_char c :
  PyStr.mem (PyStr.lower_char c) (PyStr.chars strip_set)
  = PyStr.mem c (PyStr.chars strip_set).
Proof. destruct c as [[] [] [] [] [] [] [] []]; reflexivity. Qed.

Lemma isspace_lower_char c :
  PyStr.isspace (PyStr.lower_char c) = PyStr.isspace c.
Proof. destruct c as [[] [] [] [] [] [] [] []]; reflexivity. Qed.

Lemma lstrip_with_id p l :
  (forall c rest, l = c :: rest -> p c = false) -> PyStr.lstrip_with p l = l.
Proof.
  destruct l as [|c l]; cbn; [reflexivity |].
  intros H. now rewrite (H c l eq_refl).
Qed.

(** Stripping changes nothing when neither end is to be stripped. *)
Lemma strip_with_id p l :
  (forall c rest, l = c :: rest -> p c = false) ->
  (forall c front, l = front ++ [c] -> p c = false) ->
  PyStr.strip_with p l = l.
Proof.
  intros Hhead Hlast. unfold PyStr.strip_with.
  rewrite (lstrip_with_id p l Hhead), lstrip_with_id; [apply rev_involutive |].
  intros c rest Hrev. apply (Hlast c (rev rest)).
  rewrite <- (rev_involutive l), Hrev. reflexivity.
Qed.

(** What is stripped is a part of the string. *)
Lemma strip_with_Forall (P : ascii -> Prop) p l :
  Forall P l -> Forall P (PyStr.strip_with p l).
Proof.
  intros Hall.
  destruct (strip_with_spec p l) as (pre & suf & Heq & _).
  rewrite Heq in Hall.
  apply List.Forall_app in Hall as [_ Hall].
  now apply List.Forall_app in Hall as [Hall _].
Qed.

(** The characters of a normalised word. *)
Lemma normalized_chars word :
  PyStr.chars (_strip_and_lowercase_the_word word)
  = map PyStr.lower_char
      (PyStr.strip_with (fun c => PyStr.mem c (PyStr.chars strip_set))
         (PyStr.chars word)).
Proof.
  unfold _strip_and_lowercase_the_word, PyStr.lower, PyStr.strip.
  now rewrite !chars_of_chars.
Qed.

Lemma truthy_spec w : PyStr.truthy w = true <-> w <> ""%string.
Proof. destruct w; cbn; split; congruence. Qed.

(** The tokens of [split] are not empty and hold no white space. *)
Lemma split_go_tokens cur l :
  Forall (fun c => PyStr.isspace c = false) cur ->
  Forall (fun t => t <> ""%string
                   /\ Forall (fun c => PyStr.isspace c = false) (PyStr.chars t))
    (PyStr.split_go cur l).
Proof.
  assert (Htoken : forall cur,
             cur <> [] -> Forall (fun c => PyStr.isspace c = false) cur ->
             PyStr.of_chars (rev cur) <> ""%string
             /\ Forall (fun c => PyStr.isspace c = false)
                  (PyStr.chars (PyStr.of_chars (rev cur)))).
  { intros cur0 Hne Hall. split.
    - intros Hempty. apply of_chars_empty in Hempty.
      apply Hne. rewrite <- (rev_involutive cur0), Hempty. reflexivity.
    - rewrite chars_of_chars. now apply Forall_rev. }
  revert cur. induction l as [|c l IH]; intros cur Hcur; cbn.
  - destruct cur as [|a cur]; [constructor |].
    constructor; [| constructor]. now apply Htoken.
  - destruct (PyStr.isspace c) eqn:Hc.
    + destruct cur as [|a cur]; [apply IH; constructor |].
      constructor; [now apply Htoken | apply IH; constructor].
    + apply IH. now constructor.
Qed.

Lemma split_tokens s :
  Forall (fun t => t <> ""%string
                   /\ Forall (fun c => PyStr.isspace c = false) (PyStr.chars t))
    (PyStr.split s).
Proof. apply split_go_tokens. constructor. Qed.

End NormalForm.

Section NormalisedWord.

Variable word : string.

Let w := _strip_and_lowercase_the_word word.
Let p := fun c => PyStr.mem c (PyStr.chars strip_set).

(** A normalised word does not start with a character of the strip
    set. *)
Lemma normalized_head c rest : PyStr.chars w = c :: rest -> p c = false.
Proof.
  unfold w. rewrite normalized_chars. intros Hc.
  apply map_eq_cons in Hc as (c0 & m' & Hm & <- & _).
  unfold p. rewrite strip_set_lower_char.
  destruct (strip_with_spec (fun c => PyStr.mem c (PyStr.chars strip_set))
              (PyStr.chars word)) as (_ & _ & _ & _ & _ & Hhd & _).
  exact (Hhd c0 m' Hm).
Qed.

(** Nor does it end with one. *)
Lemma normalized_last c front : PyStr.chars w = front ++ [c] -> p c = false.
Proof.
  unfold w. rewrite normalized_chars. intros Hc.
  apply map_eq_app in Hc as (front0 & tail0 & Hm & _ & Htail).
  destruct tail0 as [|c0 [|]]; try discriminate Htail.
  injection Htail as <-.
  unfold p. rewrite strip_set_lower_char.
  destruct (strip_with_spec (fun c => PyStr.mem c (PyStr.chars strip_set))
              (PyStr.chars word)) as (_ & _ & _ & _ & _ & _ & Hlast).
  exact (Hlast c0 front0 Hm).
Qed.

Lemma normalized_strip_fixed : PyStr.strip strip_set w = w.
Proof.
  unfold PyStr.strip. fold p.
  rewrite (strip_with_id p _ normalized_head normalized_last).
  apply of_chars_chars.
Qed.

Lemma normalized_lower_fixed : PyStr.lower w = w.
Proof.
  unfold PyStr.lower, w. rewrite normalized_chars, map_map.
  rewrite (map_ext _ PyStr.lower_char) by apply lower_char_idempotent.
  rewrite <- normalized_chars. apply of_chars_chars.
Qed.

Lemma normalized_fixed : _strip_and_lowercase_the_word w = w.
Proof.
  unfold _strip_and_lowercase_the_word at 1.
  rewrite normalized_strip_fixed. apply normalized_lower_fixed.
Qed.

End NormalisedWord.

(** X4 ([_strip_and_lowercase_the_word], lines 86-91): a normalised word
    is a fixed point of the normaliser: it neither starts nor ends with a
    character of the strip set, lower-casing it changes nothing, and
    normalising it again gives the same word. *)
Theorem normalize_is_idempotent :
  forall word : string,
    let w := _strip_and_lowercase_the_word word in
    _strip_and_lowercase_the_word w = w
    /\ PyStr.lower w = w
    /\ PyStr.strip strip_set w = w
    /\ (forall c rest, PyStr.chars w = c :: rest -> ~ In c (PyStr.chars strip_set))
    /\ (forall c front, PyStr.chars w = front ++ [c] -> ~ In c (PyStr.chars strip_set)).
Proof.
  intros word w. subst w.
  split; [apply normalized_fixed |].
  split; [apply normalized_lower_fixed |].
  split; [apply normalized_strip_fixed |].
  split.
  - intros c rest Hc Hin. apply mem_In in Hin.
    rewrite (normalized_head word c rest Hc) in Hin. discriminate Hin.
  - intros c front Hc Hin. apply mem_In in Hin.
    rewrite (normalized_last word c front Hc) in Hin. discriminate Hin.
Qed.

(** ** The words taken from a page *)

Section PageWords.

Lemma prepare_words_is_last_word tokens :
  prepare_words tokens "" = last_word tokens.
Proof.
  destruct tokens as [|t tokens] using rev_ind.
  - reflexivity.
  - rewrite prepare_words_last. unfold last_word. now rewrite last_last.
Qed.

Lemma collect_words_is_filter lists :
  collect_words lists []
  = List.filter PyStr.truthy (map last_word lists).
Proof.
  induction lists as [|l lists IH]; cbn; [reflexivity |].
  rewrite collect_words_acc, IH, prepare_words_is_last_word.
  destruct (PyStr.truthy (last_word l)); reflexivity.
Qed.

(** A word prepared from the tokens of [split] holds no white space. *)
Lemma last_word_no_space s :
  Forall (fun c => PyStr.isspace c = false)
    (PyStr.chars (last_word (PyStr.split s))).
Proof.
  unfold last_word. rewrite normalized_chars.
  apply Forall_map.
  assert (Hlast : Forall (fun c => PyStr.isspace c = false)
                    (PyStr.chars (List.last (PyStr.split s) ""%string))).
  { pose proof (split_tokens s) as Htokens.
    destruct (PyStr.split s) as [|t tokens] using rev_ind; [constructor |].
    rewrite last_last. apply List.Forall_app in Htokens as [_ Ht].
    inversion Ht as [|? ? [_ Hspace] _]. exact Hspace. }
  apply (strip_with_Forall _ (fun c => PyStr.mem c (PyStr.chars strip_set))) in Hlast.
  eapply Forall_impl; [exact Hlast |].
  cbn. intros c Hc. now rewrite isspace_lower_char.
Qed.

End PageWords.

(** X5 ([_get_words_from_page], lines 66-79): without a content element
    the method raises [AttributeError]; with one it changes nothing and
    returns, for each stripped string in document order, the normalised
    last token of the string when that is not empty. So there is at most
    one word for each stripped string, and every word returned is not
    empty, holds no white space and is in normal form. *)
Theorem get_words_keeps_last_token_of_each_string :
  forall s : state,
    match _content s with
    | None => _get_words_from_page s = Raised AttributeError s
    | Some content =>
        exists words,
          _get_words_from_page s = Normal words s
          /\ words = List.filter PyStr.truthy
                       (map (fun text => last_word (PyStr.split text))
                          (stripped_strings content))
          /\ (length words <= length (stripped_strings content))%nat
          /\ Forall (fun w => w <> ""%string
                              /\ Forall (fun c => PyStr.isspace c = false) (PyStr.chars w)
                              /\ _strip_and_lowercase_the_word w = w) words
    end.
Proof.
  intros s. unfold _get_words_from_page, bind, get_state.
  destruct (_content s) as [content|]; cbn; [| reflexivity].
  eexists. split; [reflexivity |].
  rewrite collect_words_is_filter, map_map. split; [reflexivity |]. split.
  - etransitivity; [apply filter_length_le |]. now rewrite length_map.
  - apply List.Forall_forall. intros w Hw.
    apply filter_In in Hw as [Hin Htruthy].
    apply in_map_iff in Hin as (text & <- & _).
    split; [now apply truthy_spec |]. split.
    + apply last_word_no_space.
    + apply normalized_fixed.
Qed.

(** ** One turn of the loop *)

Section PageOutcome.

Lemma next_url_loop_is_find tags s :
  Forall (fun tag => is_Some (tag_attrs tag !! "href")) tags ->
  next_url_loop tags s
  = Normal
      (List.find (fun url => bool_decide (url ∉ _visited_pages s))
         (omap (fun tag => match tag_attrs tag !! "href" with
                           | Some href => Some (origin +:+ href)
                           | None => None
                           end) tags))
      s.
Proof.
  induction 1 as [|tag tags [href Hhref] _ IH].
  - reflexivity.
  - cbn [next_url_loop]. unfold bind, href_of, get_state. cbn.
    rewrite Hhref. cbn.
    destruct (bool_decide (origin +:+ href ∉ _visited_pages s)); [reflexivity |].
    exact IH.
Qed.

(** The selector as a function of the visited set and the content. *)
Lemma find_and_save_next_url_result current_url s content :
  _content s = Some content ->
  _find_and_save_next_url current_url s
  = match first_unvisited (_visited_pages s) content with
    | Some next => Normal next s
    | None =>
        SystemExit (Some 0)
          (add_output s [PrintInfiniteLoop; PrintCurrentUrl (_url s)])
    end.
Proof.
  intros Hcontent. unfold _find_and_save_next_url, bind, get_state.
  rewrite Hcontent. cbn.
  rewrite (next_url_loop_is_find _ s (find_all_good_href content)).
  fold (candidate_urls content). fold (first_unvisited (_visited_pages s) content).
  destruct (first_unvisited (_visited_pages s) content); [reflexivity |].
  cbn. unfold add_output. rewrite <- app_assoc, ?Hcontent. reflexivity.
Qed.

Variable requests_get : nat -> string -> response.

Lemma try_iteration_request_failed i s e :
  requests_get (requests_sent s) (_url s) = Fails e ->
  try_except (iteration requests_get i) handler s
  = SystemExit None (add_output (after_failed_request s) [PrintException e]).
Proof.
  intros Hget.
  unfold try_except, iteration, _parse_and_count_words, bind, fetch_page.
  rewrite Hget. reflexivity.
Qed.

Lemma try_iteration_no_content i s final heading :
  requests_get (requests_sent s) (_url s) = Responds final heading None ->
  try_except (iteration requests_get i) handler s
  = SystemExit None
      (add_output (after_response_without_content s final heading)
         [PrintException AttributeError]).
Proof.
  intros Hget.
  unfold try_except, iteration, _parse_and_count_words, bind, fetch_page.
  rewrite Hget. reflexivity.
Qed.

(** After the selector found [next]: the heading decides. *)
Lemma try_iteration_with_content i s final heading content :
  requests_get (requests_sent s) (_url s) = Responds final heading (Some content) ->
  try_except (iteration requests_get i) handler s
  = let sm := state_at_selection s final heading content in
    match first_unvisited ({[final]} ∪ _visited_pages s) content with
    | None =>
        SystemExit (Some 0)
          (add_output sm [PrintInfiniteLoop; PrintCurrentUrl (_url s)])
    | Some next =>
        match heading with
        | None =>
            SystemExit None
              (add_output (with_url sm next) [PrintException AttributeError])
        | Some h =>
            if String.eqb (text h) "Philosophy"
            then
              if i + 1 =? 0
              then
                SystemExit None
                  (add_output (with_url sm next)
                     [PrintHeading (text h); PrintPhenomenonExists i;
                      PrintTopTen (Counter.most_common 10 (_wiki_words_counter sm));
                      PrintException ZeroDivisionError])
              else
                SystemExit (Some 0)
                  (add_output (with_url sm next)
                     [PrintHeading (text h); PrintPhenomenonExists i;
                      PrintTopTen (Counter.most_common 10 (_wiki_words_counter sm));
                      PrintAverage
                        (_total_number_of_words_on_wiki_pages sm / (i + 1))])
            else Normal tt (add_output (with_url sm next) [PrintHeading (text h)])
        end
    end.
Proof.
  intros Hget. cbv zeta.
  unfold try_except, iteration, bind at 1.
  rewrite (parse_and_count_words_fetched _ _ _ _ _ Hget).
  unfold bind at 1.
  rewrite (find_and_save_next_url_result final
             (state_at_selection s final heading content) content eq_refl).
  change (_visited_pages (state_at_selection s final heading content))
    with ({[final]} ∪ _visited_pages s).
  destruct (first_unvisited ({[final]} ∪ _visited_pages s) content) as [next|];
    [| reflexivity].
  unfold set_url, bind, heading_text, get_state, attr_of, ret, raise. cbn.
  destruct heading as [h|]; cbn; [| reflexivity].
  destruct (String.eqb (text h) "Philosophy"); cbn; [| reflexivity].
  unfold _print_statistics, bind, get_state, floordiv, print, exit, raise, ret,
    handler. cbn.
  destruct (i + 1 =? 0); cbn; unfold add_output, with_url; cbn;
    rewrite <- !app_assoc; reflexivity.
Qed.

End PageOutcome.

(** The outcome of one turn, shared by the properties below. *)
Lemma try_iteration_outcome :
  forall (requests_get : nat -> string -> response) (i : Z) (s : state),
    page_outcome requests_get i s (try_except (iteration requests_get i) handler s).
Proof.
  intros requests_get i s.
  destruct (requests_get (requests_sent s) (_url s))
    as [e|final heading [content|]] eqn:Hget.
  - rewrite (try_iteration_request_failed _ _ _ _ Hget). now constructor.
  - rewrite (try_iteration_with_content _ _ _ _ _ _ Hget). cbv zeta.
    destruct (first_unvisited ({[final]} ∪ _visited_pages s) content)
      as [next|] eqn:Hnext; [| now apply DeadEnd].
    destruct heading as [h|]; [| now apply NoHeading].
    destruct (String.eqb (text h) "Philosophy") eqn:Hphil.
    + apply String.eqb_eq in Hphil. rewrite Hphil.
      destruct (i + 1 =? 0) eqn:Hi.
      * apply Z.eqb_eq in Hi. now apply FoundPhilosophyDivisionByZero.
      * apply Z.eqb_neq in Hi. now apply FoundPhilosophy.
    + apply String.eqb_neq in Hphil. now apply NextPage.
  - rewrite (try_iteration_no_content _ _ _ _ _ Hget). now constructor.
Qed.

(** X6 (the [try] statement of [run], lines 103-113, with
    [_parse_and_count_words] and [_find_and_save_next_url]): one turn of
    the loop ends in one of seven ways, decided by the response
    and the page: a failed request or a missing content or heading element
    prints the exception and exits; a page with no unvisited candidate
    prints the dead-end report and exits with what it counted but no
    statistics; a page with a candidate and another heading prints the
    heading and goes on with the candidate as the next URL; a page with a
    candidate and the heading [Philosophy] prints the verdict and the
    statistics and exits (or, for the index -1, prints the division
    error). *)
Theorem one_turn_of_the_loop :
  forall (requests_get : nat -> string -> response) (i : Z) (s : state),
    page_outcome requests_get i s (try_except (iteration requests_get i) handler s).
Proof.
  intros requests_get i s.
  destruct (requests_get (requests_sent s) (_url s))
    as [e|final heading [content|]] eqn:Hget.
  - rewrite (try_iteration_request_failed _ _ _ _ Hget). now constructor.
  - rewrite (try_iteration_with_content _ _ _ _ _ _ Hget). cbv zeta.
    destruct (first_unvisited ({[final]} ∪ _visited_pages s) content)
      as [next|] eqn:Hnext; [| now apply DeadEnd].
    destruct heading as [h|]; [| now apply NoHeading].
    destruct (String.eqb (text h) "Philosophy") eqn:Hphil.
    + apply String.eqb_eq in Hphil. rewrite Hphil.
      destruct (i + 1 =? 0) eqn:Hi.
      * apply Z.eqb_eq in Hi. now apply FoundPhilosophyDivisionByZero.
      * apply Z.eqb_neq in Hi. now apply FoundPhilosophy.
    + apply String.eqb_neq in Hphil. now apply NextPage.
  - rewrite (try_iteration_no_content _ _ _ _ _ Hget). now constructor.
Qed.

(** ** What the loop keeps *)

Section LoopFacts.

Lemma append_assoc_string (a b c : string) :
  ((a +:+ b) +:+ c = a +:+ (b +:+ c))%string.
Proof.
  induction a as [|x a IH]; [reflexivity |].
  change (String x ((a +:+ b) +:+ c) = String x (a +:+ (b +:+ c))).
  now rewrite IH.
Qed.

Lemma chars_append (a b : string) :
  PyStr.chars (a +:+ b) = PyStr.chars a ++ PyStr.chars b.
Proof.
  induction a as [|x a IH]; [reflexivity |].
  change (x :: PyStr.chars (a +:+ b) = x :: (PyStr.chars a ++ PyStr.chars b)).
  now rewrite IH.
Qed.

(** What the selector can choose: an unvisited article URL. *)
Lemma first_unvisited_spec visited content next :
  first_unvisited visited content = Some next ->
  (next ∉ visited) /\ on_wikipedia next.
Proof.
  unfold first_unvisited. intros Hfind.
  apply find_some in Hfind as [Hin Hnew].
  apply bool_decide_eq_true in Hnew. split; [exact Hnew |].
  apply list_elem_of_In in Hin. unfold candidate_urls in Hin.
  apply list_elem_of_omap in Hin as (tag & Htag & Hurl).
  apply list_elem_of_In, filter_In in Htag as [_ Hgood].
  unfold _check_good_link in Hgood.
  apply andb_true_iff in Hgood as [_ Hgood].
  destruct (tag_attrs tag !! "href") as [href|]; [| discriminate Hgood].
  injection Hurl as <-.
  apply andb_true_iff in Hgood as [Hprefix Hcolon].
  apply startswith_spec in Hprefix as [rest ->].
  exists rest. split.
  - unfold origin. now rewrite <- append_assoc_string.
  - intros Hin. apply negb_true_iff in Hcolon.
    apply not_true_iff_false in Hcolon. apply Hcolon.
    apply contains_spec. rewrite chars_append. apply in_or_app. now right.
Qed.

Lemma collected_words_not_empty content :
  Forall (fun w => w <> ""%string)
    (collect_words (map PyStr.split (stripped_strings content)) []).
Proof.
  rewrite collect_words_is_filter. apply List.Forall_forall. intros w Hw.
  apply filter_In in Hw as [_ Hw]. now apply truthy_spec.
Qed.

(** Counting the words of a page keeps the statistics consistent. *)
Lemma stats_consistent_at_selection s final heading content :
  stats_consistent s ->
  stats_consistent (state_at_selection s final heading content).
Proof.
  intros (Hwf & Hkeys & Hsum). unfold stats_consistent. cbn.
  set (words := collect_words (map PyStr.split (stripped_strings content)) []).
  pose proof (of_list_wf words) as Hwf'.
  rewrite (iadd_unfold _ _ Hwf Hwf'). split; [| split].
  - apply add_counts_wf; [exact Hwf | apply Hwf'].
  - apply (add_counts_keys (fun k => k <> ""%string)); [| exact Hkeys].
    apply (count_words_keys (fun k => k <> ""%string));
      [apply collected_words_not_empty | constructor].
  - rewrite add_counts_sum, Hsum. unfold Counter.of_list.
    rewrite count_words_sum. cbn. lia.
Qed.

Lemma stats_consistent_same_fields s s' :
  _wiki_words_counter s' = _wiki_words_counter s ->
  _total_number_of_words_on_wiki_pages s' = _total_number_of_words_on_wiki_pages s ->
  stats_consistent s -> stats_consistent s'.
Proof. unfold stats_consistent. intros -> ->. exact id. Qed.

Lemma size_add_one (final : string) (visited : gset string) :
  (size ({[final]} ∪ visited) <= S (size visited))%nat.
Proof.
  rewrite (union_comm_L {[final]} visited), size_union_alt.
  assert (Hone : (size (({[final]} : gset string) ∖ visited) <= 1)%nat).
  { rewrite <- (size_singleton (C := gset string) final).
    apply subseteq_size. intros x Hx.
    apply elem_of_difference in Hx as [Hx _]. exact Hx. }
  lia.
Qed.

Variable requests_get : nat -> string -> response.

(** One turn sends one request, adds at most one URL to the visited
    set, keeps the statistics consistent, and leaves in [_url] what was
    there or an article URL. *)
Lemma turn_effect i s :
  let s' := final_state (try_except (iteration requests_get i) handler s) in
  requests_sent s' = S (requests_sent s)
  /\ (size (_visited_pages s') <= S (size (_visited_pages s)))%nat
  /\ (stats_consistent s -> stats_consistent s')
  /\ (_url s' = _url s \/ on_wikipedia (_url s')).
Proof.
  cbv zeta.
  generalize (try_iteration_outcome requests_get i s).
  generalize (try_except (iteration requests_get i) handler s).
  intros r Hr.
  destruct Hr as [e Hget|final heading Hget|final heading content Hget Hnone
                 |final content next Hget Hnext
                 |final heading content next Hget Hnext Hother
                 |final heading content next Hget Hnext Hphil Hi
                 |final heading content next Hget Hnext Hphil Hi]; cbn.
  all: split; [reflexivity | split; [| split]].
  all: try apply size_add_one.
  all: try (now left).
  all: try (right; eapply first_unvisited_spec; eassumption).
  all: try (cbn; lia).
  all: intros Hs.
  all: try exact Hs.
  all: eapply stats_consistent_same_fields;
    [| | eapply (stats_consistent_at_selection s); exact Hs]; reflexivity.
Qed.

(** A relation between states that holds across each turn holds across
    the loop. *)
Lemma run_loop_relates (R : state -> state -> Prop) :
  (forall s, R s s) ->
  (forall a b c, R a b -> R b c -> R a c) ->
  (forall i s, R s (final_state (try_except (iteration requests_get i) handler s))) ->
  forall indices s, R s (final_state (run_loop requests_get indices s)).
Proof.
  intros Hrefl Htrans Hturn indices.
  induction indices as [|i rest IH]; intros s; cbn [run_loop].
  - apply Hrefl.
  - unfold bind. pose proof (Hturn i s) as Hstep.
    destruct (try_except (iteration requests_get i) handler s) as [[] s1|e s1|c s1];
      cbn in *; [| exact Hstep | exact Hstep].
    eapply Htrans; [exact Hstep | apply IH].
Qed.

(** After the loop, [run] only prints. *)
Lemma run_final_state s :
  exists lines,
    final_state (run requests_get s)
    = add_output (state_after_loop requests_get s) lines.
Proof.
  unfold run, state_after_loop, bind at 1 2, get_state.
  destruct (run_loop requests_get (range (_max_page_number s)) s)
    as [[] s1|e s1|c s1]; cbn.
  - unfold bind, print, _print_statistics, floordiv, get_state, raise, ret. cbn.
    destruct (_max_page_number s1 =? 0); cbn; eexists;
      unfold add_output; cbn; rewrite <- !app_assoc; cbn; reflexivity.
  - exists []. destruct s1. unfold add_output. cbn. now rewrite app_nil_r.
  - exists []. destruct s1. unfold add_output. cbn. now rewrite app_nil_r.
Qed.

End LoopFacts.

(** X7 (lines 50-51 in the loop of [run]): the statistics fields stay
    consistent from any consistent state (the fresh object is one): after
    every page, after the loop and after the run the counter has no key
    twice, no empty key and positive counts only, and its counts add up to
    [_total_number_of_words_on_wiki_pages]. *)
Theorem statistics_stay_consistent :
  forall (requests_get : nat -> string -> response) (s : state),
    stats_consistent s ->
    stats_consistent (final_state (_parse_and_count_words requests_get s))
    /\ (forall indices,
           stats_consistent (final_state (run_loop requests_get indices s)))
    /\ stats_consistent (final_state (run requests_get s)).
Proof.
  intros requests_get s Hs.
  assert (Hloop : forall indices s0,
             stats_consistent s0 ->
             stats_consistent (final_state (run_loop requests_get indices s0))).
  { intros indices.
    apply (run_loop_relates requests_get
             (fun a b => stats_consistent a -> stats_consistent b)); auto.
    intros i s0. apply (turn_effect requests_get i s0). }
  split; [| split].
  - destruct (requests_get (requests_sent s) (_url s))
      as [e|final heading [content|]] eqn:Hget.
    + unfold _parse_and_count_words, bind, fetch_page. rewrite Hget. exact Hs.
    + rewrite (parse_and_count_words_fetched _ _ _ _ _ Hget).
      pose proof (stats_consistent_at_selection s final heading content Hs) as Hsm.
      destruct (select_and_set_url_spec (state_at_selection s final heading content)
                  final content eq_refl) as [(next & _ & _ & ->) | (_ & ->)];
        exact Hsm.
    + unfold _parse_and_count_words, bind, fetch_page. rewrite Hget. exact Hs.
  - intros indices. now apply Hloop.
  - destruct (run_final_state requests_get s) as [lines ->].
    apply (stats_consistent_same_fields (state_after_loop requests_get s));
      [reflexivity | reflexivity |].
    now apply Hloop.
Qed.

(** The fresh object is consistent, and so is the state after a run
    over a page. *)
Lemma statistics_stay_consistent_witness :
  stats_consistent (__init__ Sample.start 2)
  /\ stats_consistent (final_state (run Sample.hello_web (__init__ Sample.start 2))).
Proof.
  assert (Hinit : stats_consistent (__init__ Sample.start 2)).
  { split; [split; [apply NoDup_nil_2 | constructor] | split; [constructor | reflexivity]]. }
  split; [exact Hinit |].
  exact (proj2 (proj2 (statistics_stay_consistent Sample.hello_web _ Hinit))).
Defined.

(** X8 (line 43 in the loop of [run]): the visited set grows by at most
    one URL for each request sent, over the loop and over the run. *)
Theorem visited_grows_by_one_per_request :
  forall (requests_get : nat -> string -> response) (s : state),
    (forall indices,
        let s' := final_state (run_loop requests_get indices s) in
        (requests_sent s <= requests_sent s')%nat
        /\ (size (_visited_pages s') + requests_sent s
            <= size (_visited_pages s) + requests_sent s')%nat)
    /\ (let s' := final_state (run requests_get s) in
        (requests_sent s <= requests_sent s')%nat
        /\ (size (_visited_pages s') + requests_sent s
            <= size (_visited_pages s) + requests_sent s')%nat).
Proof.
  intros requests_get s.
  assert (Hloop : forall indices s0,
             let s' := final_state (run_loop requests_get indices s0) in
             (requests_sent s0 <= requests_sent s')%nat
             /\ (size (_visited_pages s') + requests_sent s0
                 <= size (_visited_pages s0) + requests_sent s')%nat).
  { intros indices.
    apply (run_loop_relates requests_get
             (fun a b => (requests_sent a <= requests_sent b)%nat
                         /\ (size (_visited_pages b) + requests_sent a
                             <= size (_visited_pages a) + requests_sent b)%nat)).
    - intros a. lia.
    - intros a b c [H1 H2] [H3 H4]. lia.
    - intros i s0. destruct (turn_effect requests_get i s0) as (Hsent & Hsize & _).
      rewrite Hsent. lia. }
  split; [intros indices; apply Hloop |].
  cbv zeta. destruct (run_final_state requests_get s) as [lines ->]. cbn.
  apply (Hloop (range (_max_page_number s)) s).
Qed.

(** X9 (lines 53 and 57-60 with [_check_good_link]): after a page that
    ends normally, [_url] is an article URL: the origin, [/wiki] and a rest
    without a colon; so over the loop [_url] is the URL the run was given
    or such an article URL, and the crawler never asks for an external or a
    namespaced page that it found itself. *)
Theorem next_url_is_an_article_url :
  forall (requests_get : nat -> string -> response) (s : state),
    (forall s', _parse_and_count_words requests_get s = Normal tt s' ->
                on_wikipedia (_url s'))
    /\ (forall indices,
           let s' := final_state (run_loop requests_get indices s) in
           _url s' = _url s \/ on_wikipedia (_url s')).
Proof.
  intros requests_get s. split.
  - intros s' Hnormal.
    destruct (requests_get (requests_sent s) (_url s))
      as [e|final heading [content|]] eqn:Hget.
    + unfold _parse_and_count_words, bind, fetch_page in Hnormal.
      rewrite Hget in Hnormal. discriminate Hnormal.
    + rewrite (parse_and_count_words_fetched _ _ _ _ _ Hget) in Hnormal.
      unfold bind in Hnormal.
      rewrite (find_and_save_next_url_result final
                 (state_at_selection s final heading content) content eq_refl)
        in Hnormal.
      destruct (first_unvisited
                  (_visited_pages (state_at_selection s final heading content))
                  content) as [next|] eqn:Hnext; [| discriminate Hnormal].
      injection Hnormal as <-. cbn.
      eapply first_unvisited_spec. exact Hnext.
    + unfold _parse_and_count_words, bind, fetch_page in Hnormal.
      rewrite Hget in Hnormal. discriminate Hnormal.
  - intros indices. revert s.
    apply (run_loop_relates requests_get
             (fun a b => _url b = _url a \/ on_wikipedia (_url b))).
    + intros a. now left.
    + intros a b c [Hab|Hab] [Hbc|Hbc]; [left; congruence | now right | | now right].
      right. now rewrite Hbc.
    + intros i s0. apply (turn_effect requests_get i s0).
Qed.

(** The link found on the article [Target] is an article URL. *)
Lemma next_url_is_an_article_url_witness :
  _parse_and_count_words Sample.redirect_web (__init__ Sample.start 3)
  = Normal tt
      (with_url
         (state_at_selection (__init__ Sample.start 3)
            "https://en.wikipedia.org/wiki/Target" (Some (Sample.h1 "Target"))
            (Sample.div [inl (Sample.anchor "/wiki/Next" "next")]))
         "https://en.wikipedia.org/wiki/Next")
  /\ on_wikipedia "https://en.wikipedia.org/wiki/Next".
Proof.
  assert (Hrun : _parse_and_count_words Sample.redirect_web (__init__ Sample.start 3)
                 = Normal tt
                     (with_url
                        (state_at_selection (__init__ Sample.start 3)
                           "https://en.wikipedia.org/wiki/Target"
                           (Some (Sample.h1 "Target"))
                           (Sample.div [inl (Sample.anchor "/wiki/Next" "next")]))
                        "https://en.wikipedia.org/wiki/Next")) by reflexivity.
  split; [exact Hrun |].
  exact (proj1 (next_url_is_an_article_url Sample.redirect_web
                  (__init__ Sample.start 3)) _ Hrun).
Defined.

(** ** How a run ends *)

Section RunOutcome.

Variable requests_get : nat -> string -> response.

(** The loop over the indices [a], [a+1], ... (there are [len]): it
    ends normally after [len] requests, or exits in a turn, the [k]-th,
    with that turn's last lines. *)
Lemma run_loop_outcome len :
  forall a s,
    match run_loop requests_get (map Z.of_nat (seq a len)) s with
    | Normal _ s' => requests_sent s' = (requests_sent s + len)%nat
    | Raised _ _ => False
    | SystemExit code s' =>
        exists k,
          (1 <= k <= len)%nat
          /\ requests_sent s' = (requests_sent s + k)%nat
          /\ match code with
             | Some c =>
                 c = 0
                 /\ (output_ends_with s' [PrintInfiniteLoop; PrintCurrentUrl (_url s')]
                     \/ output_ends_with s'
                          [PrintHeading "Philosophy";
                           PrintPhenomenonExists (Z.of_nat (a + k) - 1);
                           PrintTopTen (Counter.most_common 10 (_wiki_words_counter s'));
                           PrintAverage (_total_number_of_words_on_wiki_pages s'
                                         / Z.of_nat (a + k))])
             | None => exists e, output_ends_with s' [PrintException e]
             end
    end.
Proof.
  induction len as [|len IH]; intros a s; cbn [seq map run_loop].
  - cbn. lia.
  - unfold bind.
    generalize (try_iteration_outcome requests_get (Z.of_nat a) s).
    generalize (try_except (iteration requests_get (Z.of_nat a)) handler s).
    intros r Hr.
    destruct Hr as [e Hget|final heading Hget|final heading content Hget Hnone
                   |final content next Hget Hnext
                   |final heading content next Hget Hnext Hother
                   |final heading content next Hget Hnext Hphil Hi
                   |final heading content next Hget Hnext Hphil Hi].
    + exists 1%nat. split; [lia |]. split; [cbn; lia |].
      exists e, (stdout s). reflexivity.
    + exists 1%nat. split; [lia |]. split; [cbn; lia |].
      exists AttributeError, (stdout s). reflexivity.
    + exists 1%nat. split; [lia |]. split; [cbn; lia |].
      split; [reflexivity |]. left. exists (stdout s). reflexivity.
    + exists 1%nat. split; [lia |]. split; [cbn; lia |].
      exists AttributeError, (stdout s). reflexivity.
    + set (s1 := add_output
                   (with_url (state_at_selection s final (Some heading) content) next)
                   [PrintHeading (text heading)]).
      assert (Hsent : requests_sent s1 = S (requests_sent s)) by reflexivity.
      specialize (IH (S a) s1).
      destruct (run_loop requests_get (map Z.of_nat (seq (S a) len)) s1)
        as [[] s'|e s'|code s'].
      * lia.
      * exact IH.
      * destruct IH as (k & Hk & Hreq & Hout). exists (S k).
        split; [lia |]. split; [lia |].
        replace (a + S k)%nat with (S a + k)%nat by lia. exact Hout.
    + exists 1%nat. split; [lia |]. split; [cbn; lia |].
      split; [reflexivity |]. right. exists (stdout s). cbn.
      replace (Z.of_nat (a + 1) - 1) with (Z.of_nat a) by lia.
      replace (Z.of_nat (a + 1)) with (Z.of_nat a + 1) by lia.
      reflexivity.
    + lia.
Qed.

Lemma range_is_seq n : range n = map Z.of_nat (seq 0 (Z.to_nat n)).
Proof. reflexivity. Qed.

(** The whole run, by what the loop gave. *)
Lemma run_outcome s :
  match run requests_get s with
  | Normal _ s' =>
      _max_page_number s <> 0
      /\ requests_sent s' = (requests_sent s + Z.to_nat (_max_page_number s))%nat
      /\ output_ends_with s'
           [PrintNoPhenomenon (_max_page_number s);
            PrintTopTen (Counter.most_common 10 (_wiki_words_counter s'));
            PrintAverage (_total_number_of_words_on_wiki_pages s'
                          / _max_page_number s)]
  | Raised e s' =>
      e = ZeroDivisionError
      /\ _max_page_number s = 0
      /\ requests_sent s' = requests_sent s
      /\ output_ends_with s'
           [PrintNoPhenomenon 0;
            PrintTopTen (Counter.most_common 10 (_wiki_words_counter s'))]
  | SystemExit code s' =>
      exists k,
        (1 <= k <= Z.to_nat (_max_page_number s))%nat
        /\ requests_sent s' = (requests_sent s + k)%nat
        /\ match code with
           | Some c =>
               c = 0
               /\ (output_ends_with s' [PrintInfiniteLoop; PrintCurrentUrl (_url s')]
                   \/ output_ends_with s'
                        [PrintHeading "Philosophy";
                         PrintPhenomenonExists (Z.of_nat k - 1);
                         PrintTopTen (Counter.most_common 10 (_wiki_words_counter s'));
                         PrintAverage (_total_number_of_words_on_wiki_pages s'
                                       / Z.of_nat k)])
           | None => exists e, output_ends_with s' [PrintException e]
           end
  end.
Proof.
  unfold run, bind at 1 2, get_state.
  pose proof (run_loop_outcome (Z.to_nat (_max_page_number s)) 0%nat s) as Hloop.
  pose proof (steady_run_loop requests_get (range (_max_page_number s)) s)
    as [Hgrows _].
  rewrite <- range_is_seq in Hloop.
  destruct (run_loop requests_get (range (_max_page_number s)) s)
    as [[] s1|e s1|code s1].
  - cbn in Hgrows. apply grows_budget in Hgrows.
    unfold bind, print, _print_statistics, floordiv, get_state, raise, ret. cbn.
    rewrite Hgrows.
    destruct (_max_page_number s =? 0) eqn:Hzero; cbn.
    + apply Z.eqb_eq in Hzero. split; [reflexivity |]. split; [exact Hzero |].
      split; [rewrite Hloop, Hzero; cbn; lia |].
      exists (stdout s1). rewrite <- app_assoc, Hzero. reflexivity.
    + apply Z.eqb_neq in Hzero. split; [exact Hzero |]. split; [exact Hloop |].
      exists (stdout s1). now rewrite <- !app_assoc.
  - contradiction.
  - exact Hloop.
Qed.

End RunOutcome.

(** X10 (the loop of [run], lines 102-116): a run sends at most
    [max_page_number] requests (none for a budget that is not positive),
    exactly that many when it comes to the end of the budget, and at
    least one when it exits before. *)
Theorem requests_stay_within_budget :
  forall (requests_get : nat -> string -> response) (s : state),
    let r := run requests_get s in
    let budget := Z.to_nat (_max_page_number s) in
    (requests_sent s <= requests_sent (final_state r) <= requests_sent s + budget)%nat
    /\ (forall s', r = Normal tt s' -> requests_sent s' = (requests_sent s + budget)%nat)
    /\ (forall code s', r = SystemExit code s' -> (requests_sent s < requests_sent s')%nat).
Proof.
  intros requests_get s. cbv zeta.
  pose proof (run_outcome requests_get s) as Hrun.
  destruct (run requests_get s) as [[] s1|e s1|code s1]; cbn.
  - destruct Hrun as (_ & Hsent & _). split; [lia |]. split.
    + intros s' H. now injection H as <-.
    + intros code s' H. discriminate H.
  - destruct Hrun as (_ & _ & Hsent & _). split; [lia |]. split.
    + intros s' H. discriminate H.
    + intros code s' H. discriminate H.
  - destruct Hrun as (k & Hk & Hsent & _). split; [lia |]. split.
    + intros s' H. discriminate H.
    + intros code' s' H. injection H as <- <-. lia.
Qed.

(** X11 ([run] with [_print_statistics] and the exits, lines 55-64 and
    93-116): every run ends in one of five ways, told apart by the result
    and the last lines of the output. It returns after the verdict of the
    exhausted budget and the two statistics lines, the average being the
    total divided by the budget; or it raises [ZeroDivisionError], only
    for the budget zero, after the verdict and the top-ten line; or it
    exits with code 0 after the dead-end report, whose URL is the one that
    was requested; or it exits with code 0 on its [k]-th page after the
    heading [Philosophy], the verdict with the count [k - 1] and the
    statistics, the average being the total divided by [k]; or it exits
    after printing an exception. *)
Theorem run_ends_in_one_of_five_ways :
  forall (requests_get : nat -> string -> response) (s : state),
    match run requests_get s with
    | Normal _ s' =>
        _max_page_number s <> 0
        /\ output_ends_with s'
             [PrintNoPhenomenon (_max_page_number s);
              PrintTopTen (Counter.most_common 10 (_wiki_words_counter s'));
              PrintAverage (_total_number_of_words_on_wiki_pages s'
                            / _max_page_number s)]
    | Raised e s' =>
        e = ZeroDivisionError
        /\ _max_page_number s = 0
        /\ output_ends_with s'
             [PrintNoPhenomenon 0;
              PrintTopTen (Counter.most_common 10 (_wiki_words_counter s'))]
    | SystemExit (Some code) s' =>
        code = 0
        /\ (output_ends_with s' [PrintInfiniteLoop; PrintCurrentUrl (_url s')]
            \/ exists k,
                 (1 <= k <= Z.to_nat (_max_page_number s))%nat
                 /\ requests_sent s' = (requests_sent s + k)%nat
                 /\ output_ends_with s'
                      [PrintHeading "Philosophy";
                       PrintPhenomenonExists (Z.of_nat k - 1);
                       PrintTopTen (Counter.most_common 10 (_wiki_words_counter s'));
                       PrintAverage (_total_number_of_words_on_wiki_pages s'
                                     / Z.of_nat k)])
    | SystemExit None s' => exists e, output_ends_with s' [PrintException e]
    end.
Proof.
  intros requests_get s.
  pose proof (run_outcome requests_get s) as Hrun.
  destruct (run requests_get s) as [[] s1|e s1|[code|] s1].
  - destruct Hrun as (Hbudget & _ & Hout). auto.
  - destruct Hrun as (He & Hbudget & _ & Hout). auto.
  - destruct Hrun as (k & Hk & Hsent & Hcode & [Hout|Hout]).
    + split; [exact Hcode |]. now left.
    + split; [exact Hcode |]. right. exists k. auto.
  - destruct Hrun as (k & _ & _ & Hout). exact Hout.
Qed.

(** X12 ([run] and [_print_statistics], lines 93-116): with a negative
    budget the loop has no turn and nothing is requested; the run prints
    the verdict, the top-ten line and the average, which is the floor of
    the total divided by the negative budget, and returns normally. *)
Theorem negative_budget_requests_nothing :
  forall (requests_get : nat -> string -> response) (s : state),
    _max_page_number s < 0 ->
    run requests_get s
    = Normal tt
        (add_output s
           [PrintNoPhenomenon (_max_page_number s);
            PrintTopTen (Counter.most_common 10 (_wiki_words_counter s));
            PrintAverage (_total_number_of_words_on_wiki_pages s
                          / _max_page_number s)]).
Proof.
  intros requests_get s Hneg.
  assert (Hrange : range (_max_page_number s) = []).
  { unfold range. destruct (_max_page_number s); [lia | lia | reflexivity]. }
  unfold run, bind at 1 2, get_state. rewrite Hrange. cbn [run_loop].
  unfold bind, print, _print_statistics, floordiv, get_state, raise, ret. cbn.
  destruct (_max_page_number s =? 0) eqn:Hzero; [apply Z.eqb_eq in Hzero; lia |].
  unfold add_output, print. cbn. rewrite <- !app_assoc. reflexivity.
Qed.

(** A fresh object with the budget -3: three lines, the average 0. *)
Lemma negative_budget_requests_nothing_witness :
  _max_page_number (__init__ Sample.start (-3)) < 0
  /\ run Sample.dead_web (__init__ Sample.start (-3))
     = Normal tt
         (add_output (__init__ Sample.start (-3))
            [PrintNoPhenomenon (-3); PrintTopTen []; PrintAverage 0]).
Proof.
  assert (Hneg : _max_page_number (__init__ Sample.start (-3)) < 0) by (cbn; lia).
  split; [exact Hneg |].
  exact (negative_budget_requests_nothing Sample.dead_web _ Hneg).
Defined.

(** ** Redirects *)

Section Redirects.

Variable requests_get : nat -> string -> response.
Variables (final : string) (heading content : Tag) (next : string).

Hypothesis always_the_same_article :
  forall n url, requests_get n url = Responds final (Some heading) (Some content).
Hypothesis another_heading : text heading <> "Philosophy"%string.

Lemma redirect_turn i s :
  first_unvisited ({[final]} ∪ _visited_pages s) content = Some next ->
  try_except (iteration requests_get i) handler s
  = Normal tt
      (add_output (with_url (state_at_selection s final (Some heading) content) next)
         [PrintHeading (text heading)]).
Proof.
  intros Hnext.
  rewrite (try_iteration_with_content requests_get i s final (Some heading) content
             (always_the_same_article _ _)).
  cbv zeta. rewrite Hnext.
  destruct (String.eqb (text heading) "Philosophy") eqn:Hphil; [| reflexivity].
  apply String.eqb_eq in Hphil. contradiction.
Qed.

Lemma redirect_loop indices :
  forall s,
    first_unvisited ({[final]} ∪ _visited_pages s) content = Some next ->
    exists s',
      run_loop requests_get indices s = Normal tt s'
      /\ requests_sent s' = (requests_sent s + length indices)%nat
      /\ _max_page_number s' = _max_page_number s
      /\ (indices <> [] ->
          _visited_pages s' = {[final]} ∪ _visited_pages s /\ _url s' = next).
Proof.
  induction indices as [|i rest IH]; intros s Hnext; cbn [run_loop].
  - exists s. split; [reflexivity |]. split; [cbn; lia |].
    split; [reflexivity |]. intros H. contradiction.
  - unfold bind. rewrite (redirect_turn i s Hnext).
    set (s1 := add_output
                 (with_url (state_at_selection s final (Some heading) content) next)
                 [PrintHeading (text heading)]).
    assert (Hvisited : {[final]} ∪ _visited_pages s1 = {[final]} ∪ _visited_pages s).
    { cbn. apply set_eq. intros x. rewrite !elem_of_union. tauto. }
    destruct (IH s1) as (s' & Hloop & Hsent & Hbudget & Hrest).
    { rewrite Hvisited. exact Hnext. }
    exists s'. split; [exact Hloop |]. split; [cbn in *; lia |].
    split; [exact Hbudget |]. intros _.
    destruct rest as [|j rest].
    + cbn in Hloop. injection Hloop as <-. split; reflexivity.
    + destruct Hrest as [Hv Hu]; [discriminate |].
      split; [now rewrite Hv, Hvisited | exact Hu].
Qed.

End Redirects.

(** X13 (lines 42-43 against 58-59): the visited set holds final URLs
    while candidates are compared as they are written, so a cycle through
    a redirect is not seen. When every request is answered by the same
    article, with a heading other than [Philosophy] and a candidate whose
    URL differs from the visited ones, a run with a positive budget
    fetches that article on every turn, the whole budget long, keeps one
    URL in the visited set and ends with the verdict of the exhausted
    budget. *)
Theorem redirect_cycle_uses_up_the_budget :
  forall (requests_get : nat -> string -> response)
         (final : string) (heading content : Tag) (next : string) (s : state),
    (forall n url, requests_get n url = Responds final (Some heading) (Some content)) ->
    text heading <> "Philosophy"%string ->
    first_unvisited ({[final]} ∪ _visited_pages s) content = Some next ->
    1 <= _max_page_number s ->
    exists s',
      run requests_get s = Normal tt s'
      /\ requests_sent s' = (requests_sent s + Z.to_nat (_max_page_number s))%nat
      /\ _visited_pages s' = {[final]} ∪ _visited_pages s
      /\ _url s' = next.
Proof.
  intros requests_get final heading content next s Hweb Hother Hnext Hbudget.
  destruct (redirect_loop requests_get final heading content next Hweb Hother
              (range (_max_page_number s)) s Hnext)
    as (s1 & Hloop & Hsent & Hsame & Hrest).
  assert (Hlen : length (range (_max_page_number s)) = Z.to_nat (_max_page_number s)).
  { unfold range. now rewrite length_map, length_seq. }
  destruct Hrest as [Hvisited Hurl].
  { intros Hnil. rewrite Hnil in Hlen. cbn in Hlen. lia. }
  unfold run, bind at 1 2, get_state. rewrite Hloop.
  unfold bind, print, _print_statistics, floordiv, get_state, raise, ret. cbn.
  rewrite Hsame.
  destruct (_max_page_number s =? 0) eqn:Hzero; [apply Z.eqb_eq in Hzero; lia |].
  cbn. eexists. split; [reflexivity |]. cbn.
  split; [lia |]. split; [exact Hvisited | exact Hurl].
Qed.

(** Every URL redirects to the article [Target], which links to
    [/wiki/Next]: three turns, three requests, one visited URL. *)
Lemma redirect_cycle_uses_up_the_budget_witness :
  (forall n url,
      Sample.redirect_web n url
      = Responds "https://en.wikipedia.org/wiki/Target" (Some (Sample.h1 "Target"))
          (Some (Sample.div [inl (Sample.anchor "/wiki/Next" "next")])))
  /\ text (Sample.h1 "Target") <> "Philosophy"%string
  /\ 1 <= _max_page_number (__init__ Sample.start 3)
  /\ exists s',
       run Sample.redirect_web (__init__ Sample.start 3) = Normal tt s'
       /\ requests_sent s' = 3%nat
       /\ _visited_pages s' = {[ "https://en.wikipedia.org/wiki/Target"%string ]} ∪ ∅
       /\ _url s' = "https://en.wikipedia.org/wiki/Next"%string.
Proof.
  assert (Hweb : forall n url,
             Sample.redirect_web n url
             = Responds "https://en.wikipedia.org/wiki/Target"
                 (Some (Sample.h1 "Target"))
                 (Some (Sample.div [inl (Sample.anchor "/wiki/Next" "next")])))
    by reflexivity.
  assert (Hother : text (Sample.h1 "Target") <> "Philosophy"%string)
    by discriminate.
  assert (Hbudget : 1 <= _max_page_number (__init__ Sample.start 3))
    by (cbn; lia).
  split; [exact Hweb |]. split; [exact Hother |]. split; [exact Hbudget |].
  exact (redirect_cycle_uses_up_the_budget Sample.redirect_web _ _ _
           "https://en.wikipedia.org/wiki/Next"%string
           (__init__ Sample.start 3) Hweb Hother eq_refl Hbudget).
Defined.
